(** * atest/run_atests.py: the acceptance-test launcher of Robot Framework

    A shallow embedding of the script [atest/run_atests.py] (Python 2.7) and
    the properties of its argument assembly, directory preparation, process
    launch and path normalisation. *)

From Stdlib Require Import String Ascii List ZArith Bool Lia.
From stdpp Require Import base option list strings gmap.

Local Open Scope string_scope.
Local Open Scope list_scope.

(** ** Python string primitives used by the script

    Python 2 [str] values are byte strings; they are modelled as [string]. *)

Definition LF : ascii := "010"%char.
Definition CR : ascii := "013"%char.

(** The line boundaries [str.splitlines] recognises in a byte string. *)
Definition is_linebreak (c : ascii) : bool :=
  Ascii.eqb c LF || Ascii.eqb c CR.

(** [s.splitlines()]: lines without their terminators; CR LF counts as one
    terminator and a terminator at the very end opens no further line. *)
Fixpoint splitlines (s : string) : list string :=
  match s with
  | EmptyString => []
  | String c rest =>
      if Ascii.eqb c CR then
        match rest with
        | String c' rest' =>
            if Ascii.eqb c' LF then "" :: splitlines rest'
            else "" :: splitlines rest
        | EmptyString => [""]
        end
      else if Ascii.eqb c LF then "" :: splitlines rest
      else match splitlines rest with
           | line :: lines => String c line :: lines
           | [] => [String c ""]
           end
  end.

(** [s.split(sep, maxsplit)] for a one-character separator: at most
    [maxsplit] cuts, the rest of the string being the last part. *)
Fixpoint split (sep : ascii) (maxsplit : nat) : string -> list string :=
  match maxsplit with
  | O => fun s => [s]
  | S m =>
      fix scan (s : string) : list string :=
        match s with
        | EmptyString => [""]
        | String c rest =>
            if Ascii.eqb c sep then "" :: split sep m rest
            else match scan rest with
                 | part :: parts => String c part :: parts
                 | [] => [String c ""]
                 end
        end
  end.

(** [c in s] for a one-character [c]. *)
Fixpoint contains (c : ascii) (s : string) : bool :=
  match s with
  | EmptyString => false
  | String c' rest => Ascii.eqb c' c || contains c rest
  end.

Definition lower_char (c : ascii) : ascii :=
  let n := nat_of_ascii c in
  if (65 <=? n)%nat && (n <=? 90)%nat then ascii_of_nat (n + 32) else c.

(** [s.lower()] on a byte string: only A-Z change. *)
Fixpoint lower (s : string) : string :=
  match s with
  | EmptyString => EmptyString
  | String c rest => String (lower_char c) (lower rest)
  end.

(** [s.replace(old, new)] for one-character [old] and [new]. *)
Fixpoint replace (old new : ascii) (s : string) : string :=
  match s with
  | EmptyString => EmptyString
  | String c rest =>
      String (if Ascii.eqb c old then new else c) (replace old new rest)
  end.

(** [sep.join(parts)]. *)
Definition str_join (sep : string) (parts : list string) : string :=
  String.concat sep parts.

(** [s.strip()]: leading and trailing whitespace removed. *)
Fixpoint lstrip (s : string) : string :=
  match s with
  | String c rest => if Ascii.is_space c then lstrip rest else s
  | EmptyString => EmptyString
  end.

Fixpoint rstrip (s : string) : string :=
  match s with
  | EmptyString => EmptyString
  | String c rest =>
      match rstrip rest with
      | EmptyString => if Ascii.is_space c then EmptyString else String c ""
      | kept => String c kept
      end
  end.

Definition strip (s : string) : string := rstrip (lstrip s).

(** Whether a line boundary occurs in [s]. *)
Fixpoint has_linebreak (s : string) : bool :=
  match s with
  | EmptyString => false
  | String c rest => is_linebreak c || has_linebreak rest
  end.

(** ** Exceptions and results

    [SystemExit] carries what [sys.exit] was given: an integer status, or
    the text of an object that the interpreter prints to stderr before it
    exits with status 1. *)
Inductive Exception :=
| ValueError (msg : string)
| RuntimeError (msg : string)
| OSError (msg : string)
| KeyError (msg : string)
| TypeError (msg : string)
| KeyboardInterrupt
| SystemExit (code : Z + string).

Inductive Outcome (A : Type) :=
| Return (a : A)
| Raise (e : Exception).
Arguments Return {A} a.
Arguments Raise {A} e.

(** [template.format] with keyword arguments, for templates whose
    replacement fields are plain (dotted) names: a field [{f}] is replaced
    by the text [kwargs f]; an unknown field is a [KeyError], a stray brace
    or an unterminated field a [ValueError]. [field] holds the name being
    read while inside braces. *)
Fixpoint format_from (kwargs : string -> option string) (field : option string)
    (s : string) : Outcome string :=
  match s, field with
  | EmptyString, None => Return ""
  | EmptyString, Some _ => Raise (ValueError "unmatched '{' in format")
  | String c rest, None =>
      if Ascii.eqb c "{" then format_from kwargs (Some "") rest
      else if Ascii.eqb c "}" then
        Raise (ValueError "Single '}' encountered in format string")
      else match format_from kwargs None rest with
           | Return r => Return (String c r)
           | Raise e => Raise e
           end
  | String c rest, Some f =>
      if Ascii.eqb c "}" then
        match kwargs f with
        | None => Raise (KeyError f)
        | Some v =>
            match format_from kwargs None rest with
            | Return r => Return (v +:+ r)
            | Raise e => Raise e
            end
        end
      else if Ascii.eqb c "{" then
        Raise (ValueError "unexpected '{' in field name")
      else format_from kwargs (Some (f +:+ String c "")) rest
  end.

Definition format (template : string) (kwargs : string -> option string)
  : Outcome string :=
  format_from kwargs None template.

(** ** The interpreter descriptor

    [InterpreterFactory] (atest/interpreter.py) returns an object of which
    the script reads these five attributes. *)
Record Interpreter := {
  name : string;
  version : string;
  os : string;
  path : string;
  excludes : list string
}.

(** ** The host: what the script reads from its environment

    Everything the script imports or inherits and does not define itself:
    the platform's path algebra, the file system, the interpreter factory,
    the optional [tasks.jar] build step and the child process. *)

(** The two dispositions of SIGINT the script can meet: Python's default
    handler, which raises [KeyboardInterrupt], and [signal.SIG_IGN]. *)
Inductive Handler := default_int_handler | SIG_IGN.

(** One run of the child: its exit status, the file system it leaves and
    the number of interrupts delivered to the parent while it ran. *)
Record ChildRun (FS : Type) := {
  returncode : Z;
  fs_after : FS;
  sigints : nat
}.
Arguments returncode {FS} _.
Arguments fs_after {FS} _.
Arguments sigints {FS} _.

Class Host := {
  (** [os.name] *)
  os_name : string;
  (** [dirname(abspath(__file__))] *)
  CURDIR : string;
  (** [tempfile.gettempdir()] *)
  gettempdir : string;
  (** [sys.executable] *)
  sys_executable : string;
  (** [os.environ] *)
  os_environ : gmap string string;
  (** [os.path.join] of two components *)
  path_join : string -> string -> string;
  (** [os.path.normpath] *)
  normpath : string -> string;
  (** the directory a path names, as its chain of components from the root *)
  parts : string -> list string;
  (** the states of the file system, with [os.path.exists],
      [shutil.rmtree] and [os.makedirs]; the last two may fail and tell
      what they left behind *)
  FS : Type;
  exists_ : FS -> string -> bool;
  rmtree : string -> FS -> Outcome unit * FS;
  makedirs : string -> FS -> Outcome unit * FS;
  (** the long form [windll.kernel32.GetLongPathNameW] writes to its
      buffer *)
  GetLongPathNameW : FS -> string -> string;
  (** [InterpreterFactory(token)]: a descriptor, or the exception raised *)
  InterpreterFactory : string -> Exception + Interpreter;
  (** [Some build] when [from tasks import jar] succeeds *)
  tasks_jar : option (FS -> Outcome string * FS);
  (** what the child process does when started with a command line and an
      environment *)
  child : list string -> gmap string string -> FS -> ChildRun FS
}.

(** What a file system does when [rmtree] and [makedirs] succeed. *)
Class FsLaws `{Host} : Prop := {
  rmtree_gone fs p fs' :
    rmtree p fs = (Return tt, fs') -> exists_ fs' p = false;
  rmtree_creates_nothing fs p fs' q :
    rmtree p fs = (Return tt, fs') ->
    exists_ fs' q = true -> exists_ fs q = true;
  makedirs_made fs p fs' :
    makedirs p fs = (Return tt, fs') -> exists_ fs' p = true;
  makedirs_creates_chain fs p fs' q :
    makedirs p fs = (Return tt, fs') -> exists_ fs' q = true ->
    exists_ fs q = true \/ parts q `prefix_of` parts p
}.

(** ** The script's world and its effects *)

(** What the script does that can be observed from outside, in order. *)
Inductive Event :=
| Print (text : string)
| Flush
| Rmtree (p : string)
| Makedirs (p : string)
| Signal (h : Handler)
| Spawn (command : list string) (env : gmap string string)
| Wait (rc : Z).

Section Script.
Context `{Host}.

(** The state the script runs in: the file system, the disposition of
    SIGINT in the script's process and the events so far. *)
Record World := {
  fs : FS;
  sigint : Handler;
  trace : list Event
}.

(** A statement or call of the script: it returns a value or raises, and
    leaves a world. *)
Definition M (A : Type) : Type := World -> Outcome A * World.

Definition ret {A} (a : A) : M A := fun w => (Return a, w).
Definition raise {A} (e : Exception) : M A := fun w => (Raise e, w).
Definition bind {A B} (m : M A) (k : A -> M B) : M B :=
  fun w => match m w with
           | (Return a, w') => k a w'
           | (Raise e, w') => (Raise e, w')
           end.

#[global] Instance M_ret : MRet M := @ret.
#[global] Instance M_bind : MBind M := fun A B k m => bind m k.

Definition emit (e : Event) (w : World) : World :=
  {| fs := fs w; sigint := sigint w; trace := trace w ++ [e] |}.
Definition set_fs (f : FS) (w : World) : World :=
  {| fs := f; sigint := sigint w; trace := trace w |}.
Definition set_sigint (h : Handler) (w : World) : World :=
  {| fs := fs w; sigint := h; trace := trace w |}.

(** An effect that only extends the trace. *)
Definition log (e : Event) : M unit := fun w => (Return tt, emit e w).

(** *** Library calls the script makes *)

(** [os.path.join(a, *p)]: posixpath and ntpath both fold the components
    in from the left. *)
Definition join (a : string) (p : list string) : string :=
  fold_left path_join p a.

(** [os.path.exists(p)] *)
Definition path_exists (p : string) : M bool :=
  fun w => (Return (exists_ (fs w) p), w).

(** [shutil.rmtree(p)] *)
Definition shutil_rmtree (p : string) : M unit :=
  fun w => let (r, fs') := rmtree p (fs w) in
           (r, set_fs fs' (emit (Rmtree p) w)).

(** [os.makedirs(p)] *)
Definition os_makedirs (p : string) : M unit :=
  fun w => let (r, fs') := makedirs p (fs w) in
           (r, set_fs fs' (emit (Makedirs p) w)).

(** The [print] statement, which writes [text] and a newline to stdout. *)
Definition print (text : string) : M unit := log (Print text).

(** [sys.stdout.flush()] *)
Definition sys_stdout_flush : M unit := log Flush.

(** [signal.signal(signal.SIGINT, h)] *)
Definition signal_signal (h : Handler) : M unit :=
  fun w => (Return tt, set_sigint h (emit (Signal h) w)).

(** [subprocess.call(command, env=env)]: start the child and wait for it.
    An interrupt that reaches the parent while it waits raises
    [KeyboardInterrupt] there unless SIGINT is ignored. *)
Definition subprocess_call (command : list string) (env : gmap string string)
  : M Z :=
  fun w =>
    let run := child command env (fs w) in
    let w' := set_fs (fs_after run) (emit (Spawn command env) w) in
    match sigints run, sigint w with
    | S _, default_int_handler => (Raise KeyboardInterrupt, w')
    | _, _ => (Return (returncode run), emit (Wait (returncode run)) w')
    end.

(** [sys.exit(arg)] *)
Definition sys_exit {A} (arg : Z + string) : M A := raise (SystemExit arg).

(** A pure computation that may raise, run inside the script. *)
Definition lift {A} (o : Outcome A) : M A := fun w => (o, w).

(** *** Module level *)

Definition __doc__ : string :=
"A script for running Robot Framework's acceptance tests.

Usage:  run_atests.py interpreter [options] datasource(s)

Data sources are paths to directories or files under the `atest/robot` folder.

Available options are the same that can be used with Robot Framework.
See its help (e.g. `pybot --help`) for more information.

The specified interpreter is used by acceptance tests under `atest/robot` to
run test cases under `atest/testdata`. It can be simply `python` or `jython`
(if they are in PATH) or a path to a selected interpreter (e.g.
`/usr/bin/python26`) or a path to a robotframework standalone jar (e.g.
`dist/robotframework-2.9dev234.jar`).

As a special case the interpreter value `standalone` will compile a new
standalone jar from the current sources and execute the acceptance tests with
it.

Note that this script itself must always be executed with Python 2.7.

Examples:
$ atest/run_atests.py python --test example atest/robot
$ atest/run_atests.py /opt/jython27/bin/jython atest/robot/tags/tag_doc.robot
".

(** [from tasks import jar], or the fallback defined when that import
    fails. *)
Definition jar : M string :=
  match tasks_jar with
  | Some build => fun w => let (r, fs') := build (fs w) in (r, set_fs fs' w)
  | None => raise (RuntimeError "Creating jar distribution requires 'invoke'.")
  end.

Definition ARGUMENTS : string := strip "
--doc Robot Framework acceptance tests
--metadata interpreter:{interpreter.name} {interpreter.version} on {interpreter.os}
--variablefile {variable_file};{interpreter.path};{interpreter.name};{interpreter.version}
--pythonpath {pythonpath}
--outputdir {outputdir}
--splitlog
--console dotted
--SuiteStatLevel 3
--TagStatExclude no-*
".

(** *** Functions *)

Definition dos_to_long (p : string) : M string :=
  fun w =>
    if negb (String.eqb os_name "nt" && contains "~" p && exists_ (fs w) p)
    then (Return p, w)
    else (Return (GetLongPathNameW (fs w) p), w).

Definition _get_directories (interpreter : Interpreter)
  : M (string * string) :=
  let name := replace " " "_" (lower (name interpreter)) in
  outputdir ← dos_to_long (join CURDIR ["results"; name]);
  tempdir ← dos_to_long (join gettempdir ["robottests"; name]);
  present ← path_exists outputdir;
  (if present : bool then shutil_rmtree outputdir else mret tt);;
  present ← path_exists tempdir;
  (if present : bool then shutil_rmtree tempdir else mret tt);;
  os_makedirs tempdir;;
  mret (outputdir, tempdir).

(** The keyword arguments of [ARGUMENTS.format], by replacement field. *)
Definition format_kwargs (interpreter : Interpreter)
    (variable_file pythonpath outputdir : string) (field : string)
  : option string :=
  if String.eqb field "interpreter.name" then Some (name interpreter)
  else if String.eqb field "interpreter.version" then Some (version interpreter)
  else if String.eqb field "interpreter.os" then Some (os interpreter)
  else if String.eqb field "interpreter.path" then Some (path interpreter)
  else if String.eqb field "variable_file" then Some variable_file
  else if String.eqb field "pythonpath" then Some pythonpath
  else if String.eqb field "outputdir" then Some outputdir
  else None.

(** The lines of [ARGUMENTS] with its replacement fields filled in. *)
Definition template_lines (interpreter : Interpreter)
    (variable_file pythonpath outputdir : string) : list string :=
  [ "--doc Robot Framework acceptance tests";
    "--metadata interpreter:" +:+ name interpreter +:+ " "
      +:+ version interpreter +:+ " on " +:+ os interpreter;
    "--variablefile " +:+ variable_file +:+ ";" +:+ path interpreter
      +:+ ";" +:+ name interpreter +:+ ";" +:+ version interpreter;
    "--pythonpath " +:+ pythonpath;
    "--outputdir " +:+ outputdir;
    "--splitlog";
    "--console dotted";
    "--SuiteStatLevel 3";
    "--TagStatExclude no-*" ].

(** The generator, as the list of what it yields. *)
Definition _get_arguments (interpreter : Interpreter) (outputdir : string)
  : Outcome (list string) :=
  match format ARGUMENTS
          (format_kwargs interpreter (join CURDIR ["interpreter.py"])
             (join CURDIR ["resources"]) outputdir) with
  | Raise e => Raise e
  | Return arguments =>
      Return (flat_map (fun line => split " " 1 line) (splitlines arguments)
              ++ flat_map (fun exclude => ["--exclude"; exclude])
                   (excludes interpreter))
  end.

(** The tokens [_get_arguments] yields from the template, before the
    exclusion pairs: the first loop of the generator on the formatted
    text. *)
Definition template_tokens (interpreter : Interpreter) (outputdir : string)
  : list string :=
  flat_map (fun line => split " " 1 line)
    (splitlines
       (str_join (String LF "")
          (template_lines interpreter (join CURDIR ["interpreter.py"])
             (join CURDIR ["resources"]) outputdir))).

(** The tokens of the second loop. *)
Definition exclude_pairs (interpreter : Interpreter) : list string :=
  flat_map (fun exclude => ["--exclude"; exclude]) (excludes interpreter).

(** The values substituted into the template contain no line boundary. *)
Definition one_line_values (interpreter : Interpreter) (outputdir : string)
  : Prop :=
  has_linebreak (name interpreter) = false /\
  has_linebreak (version interpreter) = false /\
  has_linebreak (os interpreter) = false /\
  has_linebreak (path interpreter) = false /\
  has_linebreak (join CURDIR ["interpreter.py"]) = false /\
  has_linebreak (join CURDIR ["resources"]) = false /\
  has_linebreak outputdir = false.

Definition runner : string :=
  normpath (join CURDIR [".."; "src"; "robot"; "run.py"]).

Definition _run (args : list string) (tempdir : string) : M Z :=
  let command := [sys_executable; runner] ++ args in
  let environ := <["TEMPDIR" := tempdir]> os_environ in
  print ("Running command:
" +:+ str_join " " command +:+ "
");;
  sys_stdout_flush;;
  signal_signal SIG_IGN;;
  subprocess_call command environ.

Definition atests (interpreter : string) (arguments : list string) : M Z :=
  interpreter ← (if String.eqb interpreter "standalone" then jar
                 else mret interpreter);
  interpreter ← match InterpreterFactory interpreter with
                | inr resolved => mret resolved
                | inl (ValueError err) => sys_exit (inr err)
                | inl e => raise e
                end;
  '(outputdir, tempdir) ← _get_directories interpreter;
  arguments' ← lift (_get_arguments interpreter outputdir);
  _run (arguments' ++ arguments) tempdir.

(** The [if __name__ == '__main__'] block; [argv] is [sys.argv]. *)
Definition main (argv : list string) : M unit :=
  rc ← (if (length argv =? 1)%nat || bool_decide ("--help" ∈ argv) then
          print __doc__;; mret 251%Z
        else match argv with
             | _ :: interpreter :: arguments => atests interpreter arguments
             | _ => raise (TypeError "atests() takes at least 1 argument (0 given)")
             end);
  sys_exit (inl rc).

End Script.

(** How the Python interpreter ends the process: [SystemExit] with an
    integer passes it to [exit] (the system keeps its low eight bits); with
    another object it prints the object to stderr and exits with 1; any
    other exception is uncaught and ends the process with a traceback and
    status 1. *)
Inductive Termination :=
| Exited (status : Z) (stderr : option string)
| Traceback (e : Exception).

Definition terminate {A} (o : Outcome A) : Termination :=
  match o with
  | Return _ => Exited 0 None
  | Raise (SystemExit (inl n)) => Exited n None
  | Raise (SystemExit (inr msg)) => Exited 1 (Some msg)
  | Raise e => Traceback e
  end.

Definition run_script `{Host} (argv : list string) (w : World)
  : Termination * World :=
  let (o, w') := main argv w in (terminate o, w').

(** ** Vocabulary of the statements *)

(** [if exists(p): shutil.rmtree(p)] succeeds on the file system [f] and
    leaves [f']. *)
Definition removed_if_exists `{Host} (p : string) (f f' : FS) : Prop :=
  if exists_ f p then rmtree p f = (Return tt, f') else f' = f.

(** The world after [if exists(p): shutil.rmtree(p)] has left [f']. *)
Definition after_removal `{Host} (p : string) (f' : FS) (w : World) : World :=
  {| fs := f';
     sigint := sigint w;
     trace := trace w ++ (if exists_ (fs w) p then [Rmtree p] else []) |}.

(** Events that neither start a child nor touch the SIGINT disposition. *)
Definition quiet (e : Event) : bool :=
  match e with
  | Spawn _ _ | Signal _ => false
  | _ => true
  end.

(** Every child of the event sequence [events] is started while SIGINT is
    ignored, [h] being the disposition before the first event. *)
Fixpoint spawns_ignore_sigint (h : Handler) (events : list Event) : bool :=
  match events with
  | [] => true
  | Signal h' :: events' => spawns_ignore_sigint h' events'
  | Spawn _ _ :: events' =>
      match h with
      | SIG_IGN => spawns_ignore_sigint h events'
      | default_int_handler => false
      end
  | _ :: events' => spawns_ignore_sigint h events'
  end.

(** [m] adds only quiet events and leaves the SIGINT disposition alone,
    whatever its outcome. *)
Definition quietly `{Host} {A} (m : M A) : Prop :=
  forall w, exists events,
    trace (snd (m w)) = trace w ++ events /\
    forallb quiet events = true /\
    sigint (snd (m w)) = sigint w.

(** Whatever the outcome of [m], every child it starts is started while
    SIGINT is ignored. *)
Definition guarded `{Host} {A} (m : M A) : Prop :=
  forall w, exists events,
    trace (snd (m w)) = trace w ++ events /\
    spawns_ignore_sigint (sigint w) events = true.

(** A raising run of [m] adds only quiet events and leaves the SIGINT
    disposition alone. *)
Definition fails_quietly `{Host} {A} (m : M A) : Prop :=
  forall w e w', m w = (Raise e, w') ->
    exists events,
      trace w' = trace w ++ events /\
      forallb quiet events = true /\
      sigint w' = sigint w.

(** What [rmtree] removes when it succeeds: everything at or below the
    path, and nothing else. *)
Class TreeLaws `{Host} : Prop := {
  rmtree_subtree fs p fs' q :
    rmtree p fs = (Return tt, fs') ->
    parts p `prefix_of` parts q -> exists_ fs' q = false;
  rmtree_only_subtree fs p fs' q :
    rmtree p fs = (Return tt, fs') ->
    exists_ fs q = true -> exists_ fs' q = false ->
    parts p `prefix_of` parts q
}.

(** In the file system [f] whatever exists lies in directories that
    exist. *)
Definition tree `{Host} (f : FS) : Prop :=
  forall p q,
    exists_ f q = true -> parts p `prefix_of` parts q -> exists_ f p = true.

(** ** A POSIX host

    A concrete host on which the script can be run: posixpath's [join] and
    [normpath], a file system that is a set of directories, an interpreter
    factory that knows [python], no [invoke] (so no [tasks.jar]) and a child
    that is interrupted once and exits with status 3. *)
Module Posix.

Definition startswith (c : ascii) (s : string) : bool :=
  match s with
  | String c' _ => Ascii.eqb c' c
  | EmptyString => false
  end.

Fixpoint endswith (c : ascii) (s : string) : bool :=
  match s with
  | EmptyString => false
  | String c' EmptyString => Ascii.eqb c' c
  | String _ rest => endswith c rest
  end.

(** posixpath.join(a, b) *)
Definition posixpath_join (a b : string) : string :=
  if startswith "/" b then b
  else if String.eqb a "" || endswith "/" a then a +:+ b
  else a +:+ "/" +:+ b.

(** The loop of posixpath.normpath over the components. *)
Fixpoint collapse (rooted : bool) (new_comps : list string)
    (comps : list string) : list string :=
  match comps with
  | [] => new_comps
  | comp :: comps' =>
      if String.eqb comp "" || String.eqb comp "." then
        collapse rooted new_comps comps'
      else if negb (String.eqb comp "..")
              || (negb rooted && bool_decide (new_comps = []))
              || bool_decide (last new_comps = Some "..") then
        collapse rooted (new_comps ++ [comp]) comps'
      else collapse rooted (removelast new_comps) comps'
  end.

(** posixpath.normpath(p) *)
Definition posixpath_normpath (p : string) : string :=
  if String.eqb p "" then "."
  else
    let slashes :=
      if startswith "/" p then
        match p with
        | String _ (String c2 rest) =>
            if Ascii.eqb c2 "/" && negb (startswith "/" rest) then "//"
            else "/"
        | _ => "/"
        end
      else "" in
    let comps :=
      collapse (startswith "/" p) [] (split "/" (String.length p) p) in
    let r := slashes +:+ str_join "/" comps in
    if String.eqb r "" then "." else r.

(** The directory a path names: the components of its normal form. *)
Definition dir_of (p : string) : list string :=
  filter (fun comp => comp <> "") (split "/" (String.length p) (posixpath_normpath p)).

(** The existing directories, each as its chain of components. *)
Definition Dirs : Type := list (list string).

Definition is_dir (fs : Dirs) (p : string) : bool :=
  bool_decide (dir_of p ∈ fs).

Definition remove_tree (p : string) (fs : Dirs) : Outcome unit * Dirs :=
  if is_dir fs p
  then (Return tt, filter (fun d => ~ dir_of p `prefix_of` d) fs)
  else (Raise (OSError "No such file or directory"), fs).

(** A directory and every directory above it. *)
Definition chain (d : list string) : list (list string) :=
  map (fun n => take n d) (seq 0 (S (length d))).

Definition make_dirs (p : string) (fs : Dirs) : Outcome unit * Dirs :=
  if is_dir fs p
  then (Raise (OSError "File exists"), fs)
  else (Return tt, chain (dir_of p) ++ fs).

Definition python : Interpreter :=
  {| name := "Python"; version := "2.7.10"; os := "linux";
     path := "/usr/bin/python2.7"; excludes := ["no-ci"] |}.

Definition factory (token : string) : Exception + Interpreter :=
  if String.eqb token "python" then inr python
  else inl (ValueError ("Invalid interpreter: " +:+ token)).

#[export] Instance host : Host := {|
  os_name := "posix";
  CURDIR := "/robot/atest";
  gettempdir := "/tmp";
  sys_executable := "/usr/bin/python";
  os_environ := {[ "PATH" := "/usr/bin" ]};
  path_join := posixpath_join;
  normpath := posixpath_normpath;
  parts := dir_of;
  FS := Dirs;
  exists_ := is_dir;
  rmtree := remove_tree;
  makedirs := make_dirs;
  GetLongPathNameW := fun _ p => p;
  InterpreterFactory := factory;
  tasks_jar := None;
  child := fun _ _ fs => {| returncode := 3; fs_after := fs; sigints := 1 |}
|}.

(** A start of the script on this host: a results directory left by an
    earlier run, and Python's own SIGINT handler installed. *)
Definition w0 : World :=
  {| fs := [[]; ["robot"]; ["robot"; "atest"];
            ["robot"; "atest"; "results"];
            ["robot"; "atest"; "results"; "python"]; ["tmp"]];
     sigint := default_int_handler;
     trace := [] |}.

End Posix.

(** ** A Windows host

    The POSIX host again, but with [os.name] equal to [nt] and a long-path
    lookup that expands the short alias [PROGRA~1]. *)
Module Nt.

Definition long_name (p : string) : string :=
  if String.eqb p "/PROGRA~1" then "/Program Files" else p.

#[export] Instance host : Host := {|
  os_name := "nt";
  CURDIR := "/robot/atest";
  gettempdir := "/tmp";
  sys_executable := "/python27/python.exe";
  os_environ := {[ "PATH" := "/python27" ]};
  path_join := Posix.posixpath_join;
  normpath := Posix.posixpath_normpath;
  parts := Posix.dir_of;
  FS := Posix.Dirs;
  exists_ := Posix.is_dir;
  rmtree := Posix.remove_tree;
  makedirs := Posix.make_dirs;
  GetLongPathNameW := fun _ p => long_name p;
  InterpreterFactory := Posix.factory;
  tasks_jar := None;
  child := fun _ _ fs => {| returncode := 0; fs_after := fs; sigints := 0 |}
|}.

Definition w0 : World :=
  {| fs := [["PROGRA~1"]; ["Python27"]];
     sigint := default_int_handler;
     trace := [] |}.

End Nt.

(** ** A host with the build step

    The POSIX host with [invoke] installed: [tasks.jar] builds a standalone
    jar under [dist] and returns its path, and the interpreter factory takes
    that path. *)
Module Standalone.

Definition jar_path : string := "/robot/dist/robotframework-2.9.jar".

Definition build (fs : Posix.Dirs) : Outcome string * Posix.Dirs :=
  (Return jar_path, Posix.chain ["robot"; "dist"] ++ fs).

Definition standalone_jar : Interpreter :=
  {| name := "Standalone JAR"; version := "2.9"; os := "linux";
     path := jar_path; excludes := ["no-standalone"; "no-jython"] |}.

Definition factory (token : string) : Exception + Interpreter :=
  if String.eqb token jar_path then inr standalone_jar
  else Posix.factory token.

#[export] Instance host : Host := {|
  os_name := "posix";
  CURDIR := "/robot/atest";
  gettempdir := "/tmp";
  sys_executable := "/usr/bin/python";
  os_environ := {[ "PATH" := "/usr/bin"; "TEMPDIR" := "/var/tmp" ]};
  path_join := Posix.posixpath_join;
  normpath := Posix.posixpath_normpath;
  parts := Posix.dir_of;
  FS := Posix.Dirs;
  exists_ := Posix.is_dir;
  rmtree := Posix.remove_tree;
  makedirs := Posix.make_dirs;
  GetLongPathNameW := fun _ p => p;
  InterpreterFactory := factory;
  tasks_jar := Some build;
  child := fun _ _ fs => {| returncode := 0; fs_after := fs; sigints := 0 |}
|}.

Definition w0 : World :=
  {| fs := [[]; ["robot"]; ["robot"; "atest"]; ["tmp"]];
     sigint := default_int_handler;
     trace := [] |}.

End Standalone.

(** ** A host whose disk is full

    The POSIX host with no space left: [rmtree] works, [makedirs] raises and
    leaves everything as it was. *)
Module FullDisk.

Definition refuse (p : string) (fs : Posix.Dirs) : Outcome unit * Posix.Dirs :=
  (Raise (OSError "No space left on device"), fs).

#[export] Instance host : Host := {|
  os_name := "posix";
  CURDIR := "/robot/atest";
  gettempdir := "/tmp";
  sys_executable := "/usr/bin/python";
  os_environ := {[ "PATH" := "/usr/bin" ]};
  path_join := Posix.posixpath_join;
  normpath := Posix.posixpath_normpath;
  parts := Posix.dir_of;
  FS := Posix.Dirs;
  exists_ := Posix.is_dir;
  rmtree := Posix.remove_tree;
  makedirs := refuse;
  GetLongPathNameW := fun _ p => p;
  InterpreterFactory := Posix.factory;
  tasks_jar := None;
  child := fun _ _ fs => {| returncode := 0; fs_after := fs; sigints := 0 |}
|}.

Definition w0 : World :=
  {| fs := [[]; ["robot"]; ["robot"; "atest"];
            ["robot"; "atest"; "results"];
            ["robot"; "atest"; "results"; "python"]; ["tmp"]];
     sigint := default_int_handler;
     trace := [] |}.

End FullDisk.

(** * Properties *)

(** ** Strings *)

(** The primitives on the inputs Python's documentation and interpreter
    show. *)
Example splitlines_blank_line :
  splitlines ("a" +:+ String LF (String LF ("b" +:+ String LF "")))
  = ["a"; ""; "b"].
Proof. reflexivity. Qed.

Example splitlines_cr_lf :
  splitlines ("a" +:+ String CR (String LF ("b" +:+ String CR "c")))
  = ["a"; "b"; "c"].
Proof. reflexivity. Qed.

Example splitlines_empty :
  splitlines "" = [] /\ splitlines (String LF "") = [""].
Proof. now split. Qed.

Example split_flag_and_value :
  split " " 1 "--doc Robot Framework acceptance tests"
  = ["--doc"; "Robot Framework acceptance tests"].
Proof. reflexivity. Qed.

Example split_flag_alone : split " " 1 "--splitlog" = ["--splitlog"].
Proof. reflexivity. Qed.

Example split_edges :
  split " " 1 "" = [""] /\ split " " 1 " x" = [""; "x"] /\
  split " " 1 "a  b" = ["a"; " b"] /\ split " " 2 "a b c d" = ["a"; "b"; "c d"].
Proof. now repeat split. Qed.

Example safe_name_of_standalone_jar :
  replace " " "_" (lower "Standalone JAR") = "standalone_jar".
Proof. reflexivity. Qed.

Example strip_blank_ends :
  strip (String LF " a b " +:+ String LF "") = "a b".
Proof. reflexivity. Qed.

Example format_fields :
  let kwargs f :=
    if String.eqb f "a" then Some "1"
    else if String.eqb f "b.c" then Some "2" else None in
  format "{a}-{b.c}" kwargs = Return "1-2" /\
  format "{d}" kwargs = Raise (KeyError "d").
Proof. now split. Qed.

Lemma append_cons c s t : String c s +:+ t = String c (s +:+ t).
Proof. reflexivity. Qed.

Lemma append_assoc s t u : (s +:+ t) +:+ u = s +:+ (t +:+ u).
Proof.
  induction s as [|c s IH]; [reflexivity|].
  rewrite !append_cons. now rewrite IH.
Qed.

Lemma has_linebreak_app s t :
  has_linebreak (s +:+ t) = has_linebreak s || has_linebreak t.
Proof.
  induction s as [|c s IH]; [reflexivity|].
  rewrite append_cons. simpl. rewrite IH. now rewrite orb_assoc.
Qed.

Lemma splitlines_single s :
  has_linebreak s = false -> s <> "" -> splitlines s = [s].
Proof.
  induction s as [|c s IH]; [congruence|]. intros Hs _.
  simpl in Hs. apply orb_false_elim in Hs as [Hc Hs].
  unfold is_linebreak in Hc. apply orb_false_elim in Hc as [Hlf Hcr].
  simpl. rewrite Hcr, Hlf.
  destruct s as [|c' s']; [reflexivity|].
  now rewrite IH.
Qed.

Lemma splitlines_line s rest :
  has_linebreak s = false ->
  splitlines (s +:+ String LF rest) = s :: splitlines rest.
Proof.
  induction s as [|c s IH]; intros Hs.
  - reflexivity.
  - simpl in Hs. apply orb_false_elim in Hs as [Hc Hs].
    unfold is_linebreak in Hc. apply orb_false_elim in Hc as [Hlf Hcr].
    rewrite append_cons. simpl. rewrite Hcr, Hlf.
    now rewrite (IH Hs).
Qed.

(** Joining one-line strings with LF and splitting the text into lines
    gives the strings back, when the last one is not empty. *)
Lemma splitlines_join (lines : list string) :
  Forall (fun l => has_linebreak l = false) lines ->
  last lines <> Some "" ->
  splitlines (str_join (String LF "") lines) = lines.
Proof.
  induction lines as [|l lines IH]; [reflexivity|].
  intros Hall Hlast. apply Forall_cons in Hall as [Hl Hall].
  destruct lines as [|l' lines].
  - simpl. apply splitlines_single; [assumption|].
    intros ->. now apply Hlast.
  - change (str_join (String LF "") (l :: l' :: lines))
      with (l +:+ String LF "" +:+ str_join (String LF "") (l' :: lines)).
    rewrite append_cons. change ("" +:+ ?x) with x.
    rewrite splitlines_line by assumption.
    f_equal. apply IH; [assumption|].
    now rewrite last_cons_cons in Hlast.
Qed.

Lemma split_cons sep m c s :
  split sep (S m) (String c s)
  = if Ascii.eqb c sep then "" :: split sep m s
    else match split sep (S m) s with
         | part :: parts => String c part :: parts
         | [] => [String c ""]
         end.
Proof. reflexivity. Qed.

(** [s.split(sep, 1)] cuts at the first separator, and only there. *)
Lemma split_once sep s :
  (contains sep s = false /\ split sep 1 s = [s]) \/
  (exists a b, s = a +:+ String sep b /\ contains sep a = false /\
               split sep 1 s = [a; b]).
Proof.
  induction s as [|c s IH]; [now left|].
  rewrite split_cons. cbn [contains].
  destruct (Ascii.eqb_spec c sep) as [->|Hc].
  - right. now exists "", s.
  - destruct IH as [[Hno ->]|(a & b & -> & Hno & ->)].
    + now left.
    + right. exists (String c a), b. repeat split.
      cbn [contains]. rewrite Hno. now destruct (Ascii.eqb_spec c sep).
Qed.

(** ** Argument assembly *)

Section Arguments.
Context `{Host}.

(** [ARGUMENTS.format] never fails on the keyword arguments the script
    passes, and yields the template's nine lines with their fields filled
    in. *)
Lemma format_ARGUMENTS i vf pp od :
  format ARGUMENTS (format_kwargs i vf pp od)
  = Return (str_join (String LF "") (template_lines i vf pp od)).
Proof.
  unfold template_lines, str_join. cbn [String.concat].
  rewrite !append_assoc. reflexivity.
Qed.

Lemma _get_arguments_eq i od :
  _get_arguments i od = Return (template_tokens i od ++ exclude_pairs i).
Proof. unfold _get_arguments. now rewrite format_ARGUMENTS. Qed.

Lemma exclude_pairs_length i :
  length (exclude_pairs i) = 2 * length (excludes i).
Proof.
  unfold exclude_pairs. induction (excludes i) as [|t ts IH]; simpl; lia.
Qed.

Lemma exclude_pairs_lookup i k tag :
  excludes i !! k = Some tag ->
  exclude_pairs i !! (2 * k) = Some "--exclude" /\
  exclude_pairs i !! (2 * k + 1) = Some tag.
Proof.
  unfold exclude_pairs. revert k.
  induction (excludes i) as [|t ts IH]; intros [|k] Hk; try discriminate.
  - injection Hk as ->. now split.
  - replace (2 * S k) with (S (S (2 * k))) by lia. simpl. now apply IH.
Qed.

Lemma exclude_pairs_count i :
  "--exclude" ∉ excludes i ->
  count_occ string_dec (exclude_pairs i) "--exclude" = length (excludes i).
Proof.
  unfold exclude_pairs.
  induction (excludes i) as [|t ts IH]; intros Hno; [reflexivity|].
  apply not_elem_of_cons in Hno as [Hne Hno].
  change (flat_map _ (t :: ts)) with
    ("--exclude" :: t :: flat_map (fun e => ["--exclude"; e]) ts).
  rewrite count_occ_cons_eq by reflexivity.
  rewrite count_occ_cons_neq by congruence.
  now rewrite IH.
Qed.

End Arguments.

(** C1 (amended). For every descriptor with N exclusion tags, argument
    assembly returns the template tokens followed by exactly N pairs made of
    the flag [--exclude] and a tag: the k-th pair stands right after the
    template tokens and the k pairs before it, flag first, then the k-th
    tag of the descriptor as a token of its own. The token [--exclude]
    occurs exactly N times in the whole sequence whenever neither a template
    token nor a tag is itself [--exclude]. *)
Theorem exclude_pairs_follow_template_tokens `{Host}
    (i : Interpreter) (outputdir : string) :
  exists args,
    _get_arguments i outputdir = Return args /\
    args = template_tokens i outputdir
           ++ flat_map (fun tag => ["--exclude"; tag]) (excludes i) /\
    length args
    = length (template_tokens i outputdir) + 2 * length (excludes i) /\
    (forall k tag, excludes i !! k = Some tag ->
       args !! (length (template_tokens i outputdir) + 2 * k)
       = Some "--exclude" /\
       args !! (length (template_tokens i outputdir) + 2 * k + 1)
       = Some tag) /\
    ("--exclude" ∉ template_tokens i outputdir ->
     "--exclude" ∉ excludes i ->
     count_occ string_dec args "--exclude" = length (excludes i)).
Proof.
  exists (template_tokens i outputdir ++ exclude_pairs i).
  split; [apply _get_arguments_eq|]. split; [reflexivity|].
  split; [|split].
  - rewrite length_app, exclude_pairs_length. lia.
  - intros k tag Hk.
    destruct (exclude_pairs_lookup i k tag Hk) as [Hflag Htag].
    rewrite <- Nat.add_assoc.
    rewrite !lookup_app_r by lia.
    replace (_ + 2 * k - _) with (2 * k) by lia.
    replace (_ + (2 * k + 1) - _) with (2 * k + 1) by lia.
    now split.
  - intros Hfixed Htags.
    rewrite count_occ_app, exclude_pairs_count by assumption.
    rewrite (proj1 (count_occ_not_In string_dec _ _)); [reflexivity|].
    now rewrite <- list_elem_of_In.
Qed.

(** On the POSIX host, for the Python descriptor with its one tag. *)
Lemma exclude_pairs_follow_template_tokens_witness :
  exists args,
    _get_arguments (H := Posix.host) Posix.python "/tmp/out" = Return args /\
    count_occ string_dec args "--exclude" = 1.
Proof.
  destruct (exclude_pairs_follow_template_tokens (H := Posix.host)
              Posix.python "/tmp/out")
    as (args & Hrun & _ & _ & _ & Hcount).
  exists args. split; [exact Hrun|].
  apply Hcount; apply (bool_decide_unpack _); vm_compute; exact I.
Defined.

(** The descriptor and output directory of the specification's round trip:
    the metadata tokens carry the substituted values and there is exactly
    one [--exclude no-ci] pair. *)
Example round_trip :
  _get_arguments (H := Posix.host)
    {| name := "Python"; version := "2.7.10"; os := "linux";
       path := "/usr/bin/python2.7"; excludes := ["no-ci"] |} "/tmp/out"
  = Return
      ["--doc"; "Robot Framework acceptance tests";
       "--metadata"; "interpreter:Python 2.7.10 on linux";
       "--variablefile";
       "/robot/atest/interpreter.py;/usr/bin/python2.7;Python;2.7.10";
       "--pythonpath"; "/robot/atest/resources";
       "--outputdir"; "/tmp/out";
       "--splitlog"; "--console"; "dotted"; "--SuiteStatLevel"; "3";
       "--TagStatExclude"; "no-*";
       "--exclude"; "no-ci"].
Proof. reflexivity. Qed.

(** C1, as stated, fails: a descriptor whose single tag is [--exclude]
    itself yields two occurrences of the flag token for one tag. *)
Lemma exclude_flag_count_counterexample :
  let i := {| name := "Python"; version := "2.7.10"; os := "linux";
              path := "/usr/bin/python2.7"; excludes := ["--exclude"] |} in
  exists args,
    _get_arguments (H := Posix.host) i "/tmp/out" = Return args /\
    length (excludes i) = 1 /\
    count_occ string_dec args "--exclude" = 2.
Proof.
  eexists. split; [reflexivity|]. split; reflexivity.
Qed.

Section TemplateLines.
Context `{Host}.

Lemma template_lines_one_line i od :
  one_line_values i od ->
  Forall (fun l => has_linebreak l = false)
    (template_lines i (join CURDIR ["interpreter.py"])
       (join CURDIR ["resources"]) od).
Proof.
  intros (Hn & Hv & Ho & Hp & Hvf & Hpp & Hod).
  unfold template_lines.
  repeat apply Forall_cons_2; try apply Forall_nil_2;
    rewrite ?has_linebreak_app, ?Hn, ?Hv, ?Ho, ?Hp, ?Hvf, ?Hpp, ?Hod;
    reflexivity.
Qed.

Lemma template_tokens_one_line i od :
  one_line_values i od ->
  template_tokens i od
  = [ "--doc"; "Robot Framework acceptance tests";
      "--metadata";
      "interpreter:" +:+ name i +:+ " " +:+ version i +:+ " on " +:+ os i;
      "--variablefile";
      join CURDIR ["interpreter.py"] +:+ ";" +:+ path i +:+ ";" +:+ name i
        +:+ ";" +:+ version i;
      "--pythonpath"; join CURDIR ["resources"];
      "--outputdir"; od;
      "--splitlog"; "--console"; "dotted"; "--SuiteStatLevel"; "3";
      "--TagStatExclude"; "no-*" ].
Proof.
  intros Hone. unfold template_tokens.
  rewrite splitlines_join.
  - reflexivity.
  - now apply template_lines_one_line.
  - discriminate.
Qed.

Lemma append_nonempty s c t : s +:+ String c t <> "".
Proof. now destruct s. Qed.

Lemma exclude_pairs_nonempty i : "" ∉ excludes i -> "" ∉ exclude_pairs i.
Proof.
  unfold exclude_pairs.
  induction (excludes i) as [|t ts IH]; intros Hno; [apply not_elem_of_nil|].
  apply not_elem_of_cons in Hno as [Hne Hno].
  change (flat_map _ (t :: ts)) with
    ("--exclude" :: t :: flat_map (fun e => ["--exclude"; e]) ts).
  rewrite !not_elem_of_cons. repeat split; try congruence. now apply IH.
Qed.

End TemplateLines.

(** C2 (amended). For every descriptor and output directory, argument
    assembly splits each line of the formatted template on its first space
    into at most two tokens: the flag, then the rest of the line as one
    value token with its spaces kept; a line with no space yields exactly
    one token. When the substituted values contain no line boundary, the
    lines are the nine lines of the template and the tokens are the
    seventeen below. No token of the assembled sequence is empty when,
    moreover, the resource path and the output directory are not empty and
    no exclusion tag is empty. *)
Theorem template_lines_split_on_first_space `{Host}
    (i : Interpreter) (outputdir : string) :
  let lines :=
    splitlines
      (str_join (String LF "")
         (template_lines i (join CURDIR ["interpreter.py"])
            (join CURDIR ["resources"]) outputdir)) in
  exists args,
    _get_arguments i outputdir = Return args /\
    args = flat_map (fun line => split " " 1 line) lines
           ++ flat_map (fun tag => ["--exclude"; tag]) (excludes i) /\
    (forall line, line ∈ lines ->
       (contains " " line = false /\ split " " 1 line = [line]) \/
       (exists flag value,
          line = flag +:+ String " " value /\
          contains " " flag = false /\
          split " " 1 line = [flag; value])) /\
    (one_line_values i outputdir ->
     lines = template_lines i (join CURDIR ["interpreter.py"])
               (join CURDIR ["resources"]) outputdir /\
     args = [ "--doc"; "Robot Framework acceptance tests";
              "--metadata";
              "interpreter:" +:+ name i +:+ " " +:+ version i +:+ " on "
                +:+ os i;
              "--variablefile";
              join CURDIR ["interpreter.py"] +:+ ";" +:+ path i +:+ ";"
                +:+ name i +:+ ";" +:+ version i;
              "--pythonpath"; join CURDIR ["resources"];
              "--outputdir"; outputdir;
              "--splitlog"; "--console"; "dotted"; "--SuiteStatLevel"; "3";
              "--TagStatExclude"; "no-*" ]
            ++ flat_map (fun tag => ["--exclude"; tag]) (excludes i) /\
     (join CURDIR ["resources"] <> "" -> outputdir <> "" ->
      "" ∉ excludes i -> "" ∉ args)).
Proof.
  intros lines.
  exists (template_tokens i outputdir ++ exclude_pairs i).
  split; [apply _get_arguments_eq|]. split; [reflexivity|].
  split; [intros line _; apply split_once|].
  intros Hone. split; [|split].
  - apply splitlines_join; [now apply template_lines_one_line|discriminate].
  - now rewrite template_tokens_one_line.
  - intros Hpp Hod Htags.
    rewrite template_tokens_one_line by assumption.
    rewrite not_elem_of_app. split; [|now apply exclude_pairs_nonempty].
    rewrite !not_elem_of_cons.
    repeat split;
      first [ discriminate | apply not_elem_of_nil
            | apply not_eq_sym;
              first [ assumption | apply append_nonempty ] ].
Qed.

(** On the POSIX host, for the Python descriptor: no empty token. *)
Lemma template_lines_split_on_first_space_witness :
  exists args,
    _get_arguments (H := Posix.host) Posix.python "/tmp/out" = Return args /\
    "" ∉ args.
Proof.
  destruct (template_lines_split_on_first_space (H := Posix.host)
              Posix.python "/tmp/out") as (args & Hrun & _ & _ & Hone).
  exists args. split; [exact Hrun|].
  apply Hone; [repeat split| | |]; try discriminate.
  apply (bool_decide_unpack _); vm_compute; exact I.
Defined.

(** C2, as stated, fails: with the empty string as output directory the line
    [--outputdir ] is split into the flag and an empty token. *)
Lemma empty_token_counterexample :
  exists args,
    _get_arguments (H := Posix.host) Posix.python "" = Return args /\
    args !! 9 = Some "".
Proof. eexists. split; reflexivity. Qed.

(** ** The script's monad *)

Section Monad.
Context `{Host}.

Lemma bind_eq {A B} (m : M A) (k : A -> M B) w :
  (m ≫= k) w
  = match m w with
    | (Return a, w') => k a w'
    | (Raise e, w') => (Raise e, w')
    end.
Proof. reflexivity. Qed.

Lemma bind_returns {A B} (m : M A) (k : A -> M B) w b w' :
  (m ≫= k) w = (Return b, w') ->
  exists a w1, m w = (Return a, w1) /\ k a w1 = (Return b, w').
Proof.
  rewrite bind_eq. destruct (m w) as [[a|e] w1]; [eauto|discriminate].
Qed.

End Monad.

(** ** Process launch *)

Section Launch.
Context `{Host}.

(** The launcher always returns: it prints the command, flushes, ignores
    SIGINT, starts the child and waits for it. *)
Lemma _run_eq args tempdir w :
  let command := [sys_executable; runner] ++ args in
  let environ := <["TEMPDIR" := tempdir]> os_environ in
  let run := child command environ (fs w) in
  _run args tempdir w
  = (Return (returncode run),
     {| fs := fs_after run;
        sigint := SIG_IGN;
        trace := trace w ++
          [Print ("Running command:
" +:+ str_join " " command +:+ "
"); Flush; Signal SIG_IGN; Spawn command environ;
           Wait (returncode run)] |}).
Proof.
  intros command environ run.
  unfold _run, print, sys_stdout_flush, log, signal_signal, subprocess_call.
  unfold mbind, M_bind, bind. cbn -[String.append str_join app].
  fold command environ run.
  destruct (sigints run); unfold emit, set_fs, set_sigint;
    cbn [fs sigint trace]; rewrite <- !app_assoc; reflexivity.
Qed.

(** Without the [signal.signal] call an interrupt during the child's run
    would end the wait with [KeyboardInterrupt]. *)
Lemma subprocess_call_interrupted command env w :
  sigint w = default_int_handler ->
  sigints (child command env (fs w)) <> 0 ->
  fst (subprocess_call command env w) = Raise KeyboardInterrupt.
Proof.
  intros Hh Hn. unfold subprocess_call. rewrite Hh.
  now destruct (sigints _).
Qed.

(** When [atests] returns, [main] exits with what it returned. *)
Lemma main_exits_with_atests_result script interpreter arguments w rc w' :
  "--help" ∉ script :: interpreter :: arguments ->
  atests interpreter arguments w = (Return rc, w') ->
  main (script :: interpreter :: arguments) w
  = (Raise (SystemExit (inl rc)), w').
Proof.
  intros Hhelp Hrun. unfold main. rewrite bind_eq.
  rewrite bool_decide_false by assumption.
  cbn [length Nat.eqb orb]. now rewrite Hrun.
Qed.

End Launch.

(** ** Directory preparation *)

Section Directories.
Context `{Host}.

Lemma world_eta w :
  {| fs := fs w; sigint := sigint w; trace := trace w |} = w.
Proof. now destruct w. Qed.

Lemma dos_to_long_total p w : exists q, dos_to_long p w = (Return q, w).
Proof. unfold dos_to_long. destruct (negb _); eauto. Qed.

Lemma dos_to_long_world p w r w' : dos_to_long p w = (r, w') -> w' = w.
Proof. unfold dos_to_long. destruct (negb _); congruence. Qed.

Lemma removal_then {B} p (k : M B) w f' :
  removed_if_exists p (fs w) f' ->
  (present ← path_exists p;
   (if present : bool then shutil_rmtree p else mret tt);; k) w
  = k (after_removal p f' w).
Proof.
  unfold removed_if_exists, after_removal. intros Hrm.
  rewrite bind_eq. unfold path_exists.
  destruct (exists_ (fs w) p).
  - rewrite bind_eq. unfold shutil_rmtree. now rewrite Hrm.
  - subst f'. rewrite app_nil_r, world_eta. reflexivity.
Qed.

Lemma removal_then_returns {B} p (k : M B) w b w' :
  (present ← path_exists p;
   (if present : bool then shutil_rmtree p else mret tt);; k) w
  = (Return b, w') ->
  exists f', removed_if_exists p (fs w) f' /\
             k (after_removal p f' w) = (Return b, w').
Proof.
  intros Hrun.
  assert (exists f', removed_if_exists p (fs w) f') as [f' Hrm].
  { unfold removed_if_exists. revert Hrun.
    rewrite bind_eq. unfold path_exists.
    destruct (exists_ (fs w) p); [|eauto].
    rewrite bind_eq. unfold shutil_rmtree.
    destruct (rmtree p (fs w)) as [[[]|e] f']; [eauto|discriminate]. }
  exists f'. split; [assumption|].
  now rewrite <- (removal_then p k w f').
Qed.

(** Directory preparation returns when its three file-system calls
    succeed, and then it has made exactly these calls. *)
Lemma _get_directories_returns i w o t fs1 fs2 fs3 :
  let safe := replace " " "_" (lower (name i)) in
  dos_to_long (join CURDIR ["results"; safe]) w = (Return o, w) ->
  dos_to_long (join gettempdir ["robottests"; safe]) w = (Return t, w) ->
  removed_if_exists o (fs w) fs1 ->
  removed_if_exists t fs1 fs2 ->
  makedirs t fs2 = (Return tt, fs3) ->
  _get_directories i w
  = (Return (o, t),
     {| fs := fs3;
        sigint := sigint w;
        trace := trace w ++ (if exists_ (fs w) o then [Rmtree o] else [])
                 ++ (if exists_ fs1 t then [Rmtree t] else [])
                 ++ [Makedirs t] |}).
Proof.
  intros safe Ho Ht Hrm1 Hrm2 Hmk.
  unfold _get_directories. fold safe.
  rewrite bind_eq, Ho, bind_eq, Ht.
  rewrite (removal_then o _ w fs1) by assumption.
  rewrite (removal_then t _ _ fs2) by assumption.
  rewrite bind_eq. unfold os_makedirs, after_removal.
  cbn [fs sigint trace]. rewrite Hmk.
  unfold set_fs, emit. cbn [fs sigint trace].
  rewrite <- !app_assoc. reflexivity.
Qed.

(** Conversely, a run of directory preparation that returns went through
    these steps. *)
Lemma _get_directories_inv i w o t w' :
  _get_directories i w = (Return (o, t), w') ->
  let safe := replace " " "_" (lower (name i)) in
  exists fs1 fs2,
    dos_to_long (join CURDIR ["results"; safe]) w = (Return o, w) /\
    dos_to_long (join gettempdir ["robottests"; safe]) w = (Return t, w) /\
    removed_if_exists o (fs w) fs1 /\
    removed_if_exists t fs1 fs2 /\
    makedirs t fs2 = (Return tt, fs w').
Proof.
  intros Hrun safe. unfold _get_directories in Hrun. fold safe in Hrun.
  apply bind_returns in Hrun as (o' & w1 & Ho & Hrun).
  pose proof (dos_to_long_world _ _ _ _ Ho) as ->.
  apply bind_returns in Hrun as (t' & w1 & Ht & Hrun).
  pose proof (dos_to_long_world _ _ _ _ Ht) as ->.
  apply removal_then_returns in Hrun as (fs1 & Hrm1 & Hrun).
  apply removal_then_returns in Hrun as (fs2 & Hrm2 & Hrun).
  apply bind_returns in Hrun as ([] & w3 & Hmk & Hret).
  unfold os_makedirs, after_removal in Hmk. cbn [fs sigint trace] in Hmk.
  destruct (makedirs t' fs2) as [r fs3] eqn:Emk.
  injection Hmk as -> <-. injection Hret as -> -> <-.
  exists fs1, fs2. now repeat split.
Qed.

End Directories.

(** *** The safe name *)

Lemma lower_char_replace c :
  lower_char (if Ascii.eqb c " " then "_"%char else c)
  = if Ascii.eqb (lower_char c) " " then "_"%char else lower_char c.
Proof. destruct c as [[] [] [] [] [] [] [] []]; reflexivity. Qed.

Lemma lower_char_idem c : lower_char (lower_char c) = lower_char c.
Proof. destruct c as [[] [] [] [] [] [] [] []]; reflexivity. Qed.

Lemma lower_idem s : lower (lower s) = lower s.
Proof.
  induction s as [|c s IH]; [reflexivity|].
  simpl. now rewrite lower_char_idem, IH.
Qed.

Lemma lower_replace s :
  lower (replace " " "_" s) = replace " " "_" (lower s).
Proof.
  induction s as [|c s IH]; [reflexivity|].
  simpl. now rewrite lower_char_replace, IH.
Qed.

Lemma replace_no_space s : contains " " (replace " " "_" s) = false.
Proof.
  induction s as [|c s IH]; [reflexivity|].
  simpl. rewrite IH, orb_false_r.
  destruct (Ascii.eqb_spec c " ") as [->|Hc]; [reflexivity|].
  now apply Ascii.eqb_neq.
Qed.

(** *** The POSIX host's file system obeys the laws *)

Lemma chain_prefix d d' : d' ∈ Posix.chain d -> d' `prefix_of` d.
Proof.
  unfold Posix.chain. intros (n & -> & _)%list_elem_of_fmap.
  apply prefix_take.
Qed.

Lemma chain_self d : d ∈ Posix.chain d.
Proof.
  unfold Posix.chain. apply list_elem_of_fmap.
  exists (length d). split; [now rewrite firstn_all|].
  apply elem_of_seq. lia.
Qed.

Lemma posix_fs_laws : @FsLaws Posix.host.
Proof.
  split; cbn [rmtree makedirs exists_ parts Posix.host];
    unfold Posix.remove_tree, Posix.make_dirs, Posix.is_dir;
    intros fs p fs'.
  - case_bool_decide; [|discriminate].
    intros Heq. injection Heq as <-. apply bool_decide_eq_false.
    intros [Hno _]%list_elem_of_filter. now apply Hno.
  - intros q. case_bool_decide; [|discriminate].
    intros Heq Hq%bool_decide_eq_true. injection Heq as <-.
    apply bool_decide_eq_true.
    now apply list_elem_of_filter in Hq as [_ Hq].
  - case_bool_decide; [discriminate|]. intros Heq.
    assert (fs' = Posix.chain (Posix.dir_of p) ++ fs) as -> by congruence.
    apply bool_decide_eq_true.
    rewrite elem_of_app. left. apply chain_self.
  - intros q. case_bool_decide; [discriminate|].
    intros Heq Hq%bool_decide_eq_true.
    assert (fs' = Posix.chain (Posix.dir_of p) ++ fs) as -> by congruence.
    rewrite elem_of_app in Hq. destruct Hq as [Hq|Hq].
    + right. now apply chain_prefix.
    + left. now apply bool_decide_eq_true.
Qed.

(** *** What the laws give after a successful preparation *)

Section Prepared.
Context `{Host} `{!FsLaws}.

Lemma removed_gone p f f' :
  removed_if_exists p f f' -> exists_ f' p = false.
Proof.
  unfold removed_if_exists. destruct (exists_ f p) eqn:E.
  - apply rmtree_gone.
  - now intros ->.
Qed.

Lemma removed_creates_nothing p f f' q :
  removed_if_exists p f f' -> exists_ f q = false -> exists_ f' q = false.
Proof.
  unfold removed_if_exists. destruct (exists_ f p).
  - intros Hrm Hq. destruct (exists_ f' q) eqn:E; [|reflexivity].
    rewrite <- Hq. symmetry. eapply rmtree_creates_nothing; eassumption.
  - now intros ->.
Qed.

End Prepared.

(** C4 (amended). For every descriptor, directory preparation derives a
    safe name by lower-casing the descriptor's name and replacing its spaces
    with underscores; the output directory is the normalised join of the
    script's directory, [results] and the safe name, the temporary one the
    normalised join of the system's temporary root, [robottests] and the
    safe name. When the file system lets it, it removes each of the two with
    [rmtree] if (and only if) it exists, creates the temporary directory
    with [makedirs] and returns the pair: the temporary directory then
    exists, and the output directory does not exist unless it is the
    temporary directory itself or one of the directories above it. *)
Theorem directories_prepared `{Host} {laws : FsLaws}
    (i : Interpreter) (w : World) (outputdir tempdir : string)
    (fs1 fs2 fs3 : FS) :
  let safe := replace " " "_" (lower (name i)) in
  dos_to_long (join CURDIR ["results"; safe]) w = (Return outputdir, w) ->
  dos_to_long (join gettempdir ["robottests"; safe]) w
  = (Return tempdir, w) ->
  removed_if_exists outputdir (fs w) fs1 ->
  removed_if_exists tempdir fs1 fs2 ->
  makedirs tempdir fs2 = (Return tt, fs3) ->
  lower safe = safe /\
  contains " " safe = false /\
  _get_directories i w
  = (Return (outputdir, tempdir),
     {| fs := fs3;
        sigint := sigint w;
        trace := trace w
                 ++ (if exists_ (fs w) outputdir then [Rmtree outputdir]
                     else [])
                 ++ (if exists_ fs1 tempdir then [Rmtree tempdir] else [])
                 ++ [Makedirs tempdir] |}) /\
  exists_ fs3 tempdir = true /\
  (~ parts outputdir `prefix_of` parts tempdir ->
   exists_ fs3 outputdir = false).
Proof.
  intros safe Ho Ht Hrm1 Hrm2 Hmk.
  split; [unfold safe; now rewrite lower_replace, lower_idem|].
  split; [apply replace_no_space|].
  split; [now apply (_get_directories_returns i w _ _ fs1 fs2 fs3)|].
  split; [eapply makedirs_made; eassumption|].
  intros Hout. destruct (exists_ fs3 outputdir) eqn:E; [|reflexivity].
  destruct (makedirs_creates_chain _ _ _ _ Hmk E) as [Hwas|Hin];
    [|contradiction].
  assert (exists_ fs1 outputdir = false) as Hgone
    by (eapply removed_gone; eassumption).
  assert (exists_ fs2 outputdir = false) as Hstill
    by (eapply removed_creates_nothing; eassumption).
  congruence.
Qed.

(** On the POSIX host, with a results directory left by an earlier run. *)
Lemma directories_prepared_witness :
  exists w',
    _get_directories (H := Posix.host) Posix.python Posix.w0
    = (Return ("/robot/atest/results/python", "/tmp/robottests/python"), w')
    /\ trace w' = [Rmtree "/robot/atest/results/python";
                   Makedirs "/tmp/robottests/python"]
    /\ exists_ (fs w') "/tmp/robottests/python" = true
    /\ exists_ (fs w') "/robot/atest/results/python" = false.
Proof.
  destruct (directories_prepared (H := Posix.host) (laws := posix_fs_laws)
              Posix.python Posix.w0
              "/robot/atest/results/python" "/tmp/robottests/python"
              [[]; ["robot"]; ["robot"; "atest"];
               ["robot"; "atest"; "results"]; ["tmp"]]
              [[]; ["robot"]; ["robot"; "atest"];
               ["robot"; "atest"; "results"]; ["tmp"]]
              [[]; ["tmp"]; ["tmp"; "robottests"];
               ["tmp"; "robottests"; "python"];
               []; ["robot"]; ["robot"; "atest"];
               ["robot"; "atest"; "results"]; ["tmp"]])
    as (_ & _ & Hrun & Htemp & Hout); try reflexivity.
  eexists. split; [exact Hrun|]. split; [reflexivity|].
  split; [exact Htemp|]. apply Hout.
  apply (bool_decide_unpack _). vm_compute. exact I.
Defined.

(** C4, as stated, fails: for a descriptor whose name is an absolute path,
    posixpath's join drops the roots, both directories are the same one,
    and the output directory exists when preparation returns. *)
Lemma output_directory_created_counterexample :
  let i := {| name := "/x"; version := "1.0"; os := "linux";
              path := "/x/bin/python"; excludes := [] |} in
  exists outputdir tempdir w',
    _get_directories (H := Posix.host) i Posix.w0
    = (Return (outputdir, tempdir), w') /\
    exists_ (fs w') outputdir = true.
Proof. do 3 eexists. split; reflexivity. Qed.

(** ** Path normalisation *)

(** C9. On every host, [dos_to_long] returns a path that contains no [~],
    or that does not exist on disk, unchanged (and leaves the world as it
    was). *)
Theorem dos_to_long_unchanged `{Host} (p : string) (w : World) :
  contains "~" p = false \/ exists_ (fs w) p = false ->
  dos_to_long p w = (Return p, w).
Proof.
  intros Hp. unfold dos_to_long.
  destruct Hp as [-> | ->]; now rewrite ?andb_false_r.
Qed.

(** On the Windows host: a short alias that is not on disk, and an existing
    path without the marker. *)
Lemma dos_to_long_unchanged_witness :
  dos_to_long (H := Nt.host) "/DOCUME~1" Nt.w0 = (Return "/DOCUME~1", Nt.w0)
  /\ dos_to_long (H := Nt.host) "/Python27" Nt.w0
     = (Return "/Python27", Nt.w0).
Proof.
  split; apply (dos_to_long_unchanged (H := Nt.host)).
  - right. reflexivity.
  - left. reflexivity.
Defined.

(** The guard matters: on the Windows host an existing short alias is
    replaced by its long form. *)
Example dos_to_long_expands :
  dos_to_long (H := Nt.host) "/PROGRA~1" Nt.w0
  = (Return "/Program Files", Nt.w0).
Proof. reflexivity. Qed.

(** ** The whole run *)

Section Pipeline.
Context `{Host}.

Lemma quietly_ret {A} (a : A) : quietly (mret a).
Proof. intros w. exists []. now rewrite app_nil_r. Qed.

Lemma quietly_raise {A} e : quietly (raise (A := A) e).
Proof. intros w. exists []. now rewrite app_nil_r. Qed.

Lemma quietly_lift {A} (o : Outcome A) : quietly (lift o).
Proof. intros w. exists []. now rewrite app_nil_r. Qed.

Lemma quietly_log e : quiet e = true -> quietly (log e).
Proof. intros He w. exists [e]. cbn. now rewrite He. Qed.

Lemma quietly_bind {A B} (m : M A) (k : A -> M B) :
  quietly m -> (forall a, quietly (k a)) -> quietly (m ≫= k).
Proof.
  intros Hm Hk w. rewrite bind_eq.
  destruct (Hm w) as (ev1 & Htr1 & Hq1 & Hs1).
  destruct (m w) as [[a|e] w1]; cbn [snd] in *.
  - destruct (Hk a w1) as (ev2 & Htr2 & Hq2 & Hs2).
    exists (ev1 ++ ev2). rewrite Htr2, Htr1, Hs2, Hs1, forallb_app, Hq1, Hq2.
    now rewrite app_assoc.
  - now exists ev1.
Qed.

Lemma quietly_path_exists p : quietly (path_exists p).
Proof. intros w. exists []. now rewrite app_nil_r. Qed.

Lemma quietly_dos_to_long p : quietly (dos_to_long p).
Proof.
  intros w. exists []. unfold dos_to_long.
  destruct (negb _); now rewrite app_nil_r.
Qed.

Lemma quietly_shutil_rmtree p : quietly (shutil_rmtree p).
Proof.
  intros w. exists [Rmtree p]. unfold shutil_rmtree.
  now destruct (rmtree p (fs w)).
Qed.

Lemma quietly_os_makedirs p : quietly (os_makedirs p).
Proof.
  intros w. exists [Makedirs p]. unfold os_makedirs.
  now destruct (makedirs p (fs w)).
Qed.

Lemma quietly_jar : quietly jar.
Proof.
  intros w. exists []. unfold jar.
  destruct tasks_jar as [build|]; [destruct (build (fs w))|];
    now rewrite app_nil_r.
Qed.

Lemma quietly_get_directories i : quietly (_get_directories i).
Proof.
  unfold _get_directories.
  repeat first
    [ apply quietly_bind; [|intros ?]
    | apply quietly_dos_to_long | apply quietly_path_exists
    | apply quietly_os_makedirs | apply quietly_ret
    | match goal with |- quietly (if ?b then _ else _) => destruct b end
    | apply quietly_shutil_rmtree ].
Qed.

Lemma spawns_ignore_quiet h events events' :
  forallb quiet events = true ->
  spawns_ignore_sigint h (events ++ events')
  = spawns_ignore_sigint h events'.
Proof.
  induction events as [|e events IH]; [reflexivity|].
  cbn [forallb]. intros [He Hq]%andb_prop.
  destruct e; try discriminate; cbn; now apply IH.
Qed.

Lemma quietly_guarded {A} (m : M A) : quietly m -> guarded m.
Proof.
  intros Hm w. destruct (Hm w) as (events & Htr & Hq & _).
  exists events. split; [assumption|].
  rewrite <- (app_nil_r events). now rewrite spawns_ignore_quiet.
Qed.

Lemma guarded_bind {A B} (m : M A) (k : A -> M B) :
  quietly m -> (forall a, guarded (k a)) -> guarded (m ≫= k).
Proof.
  intros Hm Hk w. rewrite bind_eq.
  destruct (Hm w) as (ev1 & Htr1 & Hq1 & Hs1).
  destruct (m w) as [[a|e] w1]; cbn [snd] in *.
  - destruct (Hk a w1) as (ev2 & Htr2 & Hg2).
    exists (ev1 ++ ev2). rewrite Htr2, Htr1, app_assoc. split; [reflexivity|].
    rewrite spawns_ignore_quiet by assumption. now rewrite <- Hs1.
  - exists ev1. split; [assumption|].
    rewrite <- (app_nil_r ev1). now rewrite spawns_ignore_quiet.
Qed.

Lemma guarded_run args tempdir : guarded (_run args tempdir).
Proof.
  intros w. rewrite _run_eq. eexists. split; [reflexivity|].
  now destruct (sigint w).
Qed.

Lemma guarded_atests interpreter arguments :
  guarded (atests interpreter arguments).
Proof.
  unfold atests.
  apply guarded_bind.
  { destruct (String.eqb _ _); [apply quietly_jar|apply quietly_ret]. }
  intros token. apply guarded_bind.
  { destruct (InterpreterFactory token) as [[]|];
      first [apply quietly_raise|apply quietly_ret]. }
  intros i. apply guarded_bind; [apply quietly_get_directories|].
  intros [outputdir tempdir]. apply guarded_bind; [apply quietly_lift|].
  intros args. apply guarded_run.
Qed.

Lemma guarded_main argv : guarded (main argv).
Proof.
  unfold main.
  destruct (_ || _).
  - apply quietly_guarded.
    repeat first [apply quietly_bind; [|intros ?] | apply quietly_ret
                 | apply quietly_raise | now apply quietly_log].
  - destruct argv as [|script [|interpreter arguments]].
    + apply quietly_guarded. apply quietly_bind; [apply quietly_raise|].
      intros ?. apply quietly_raise.
    + apply quietly_guarded. apply quietly_bind; [apply quietly_raise|].
      intros ?. apply quietly_raise.
    + intros w. rewrite bind_eq.
      destruct (guarded_atests interpreter arguments w) as (events & Htr & Hg).
      exists events. now destruct (atests interpreter arguments w) as [[rc|e] w'].
Qed.

(** A run of [atests] that returns resolved an interpreter, prepared its
    directories and launched the runner on the assembled arguments followed
    by the caller's. *)
Lemma atests_inv interpreter arguments w rc w' :
  atests interpreter arguments w = (Return rc, w') ->
  exists token w1 i outputdir tempdir w2,
    (if String.eqb interpreter "standalone" then jar else mret interpreter) w
    = (Return token, w1) /\
    InterpreterFactory token = inr i /\
    _get_directories i w1 = (Return (outputdir, tempdir), w2) /\
    _run ((template_tokens i outputdir ++ exclude_pairs i) ++ arguments)
      tempdir w2 = (Return rc, w').
Proof.
  unfold atests. intros Hrun.
  apply bind_returns in Hrun as (token & w1 & Htoken & Hrun).
  apply bind_returns in Hrun as (i & w1' & Hres & Hrun).
  destruct (InterpreterFactory token) as [e|i'] eqn:Efac.
  { destruct e; discriminate. }
  injection Hres as <- <-.
  apply bind_returns in Hrun as ([outputdir tempdir] & w2 & Hdirs & Hrun).
  apply bind_returns in Hrun as (args & w2' & Hargs & Hrun).
  unfold lift in Hargs. rewrite _get_arguments_eq in Hargs.
  injection Hargs as <- <-.
  exists token, w1, i', outputdir, tempdir, w2. now repeat split.
Qed.


End Pipeline.

(** ** The launched command *)

(** C3. In every run of [atests] that returns, the command line handed to
    the child is the Python executable and the runner script followed by
    the template tokens, then the exclusion pairs of the resolved
    descriptor, then the caller's arguments verbatim and last; it is the
    only child of the run. *)
Theorem command_line_order `{Host}
    (interpreter : string) (arguments : list string) (w : World)
    (rc : Z) (w' : World) :
  atests interpreter arguments w = (Return rc, w') ->
  exists token i outputdir tempdir w1 w2 before text env,
    (String.eqb interpreter "standalone" = false -> token = interpreter) /\
    InterpreterFactory token = inr i /\
    _get_directories i w1 = (Return (outputdir, tempdir), w2) /\
    _get_arguments i outputdir
    = Return (template_tokens i outputdir
              ++ flat_map (fun tag => ["--exclude"; tag]) (excludes i)) /\
    forallb quiet before = true /\
    trace w' = trace w ++ before ++
      [Print text; Flush; Signal SIG_IGN;
       Spawn ([sys_executable; runner]
              ++ template_tokens i outputdir
              ++ flat_map (fun tag => ["--exclude"; tag]) (excludes i)
              ++ arguments) env;
       Wait rc].
Proof.
  intros Hrun.
  apply atests_inv in Hrun
    as (token & w1 & i & outputdir & tempdir & w2 & Htok & Hfac & Hdirs & Hrun).
  rewrite _run_eq in Hrun. injection Hrun as <- <-.
  assert (quietly (if String.eqb interpreter "standalone" then jar
                   else mret interpreter)) as Hq1
    by (destruct (String.eqb _ _); [apply quietly_jar|apply quietly_ret]).
  destruct (Hq1 w) as (ev1 & Htr1 & Hquiet1 & _).
  destruct (quietly_get_directories i w1) as (ev2 & Htr2 & Hquiet2 & _).
  rewrite Htok in Htr1. rewrite Hdirs in Htr2. cbn [snd] in Htr1, Htr2.
  exists token, i, outputdir, tempdir, w1, w2, (ev1 ++ ev2).
  do 2 eexists. split; [|split; [exact Hfac|split; [exact Hdirs|]]].
  { intros Hne. rewrite Hne in Htok. now injection Htok as <- _. }
  split; [apply _get_arguments_eq|].
  split; [now rewrite forallb_app, Hquiet1, Hquiet2|].
  cbn [trace]. rewrite Htr2, Htr1, <- !app_assoc.
  reflexivity.
Qed.

(** On the POSIX host: [run_atests.py python --test x] returns 3. *)
Lemma command_line_order_witness :
  exists i outputdir before text env,
    trace (snd (atests (H := Posix.host) "python" ["--test"; "x"] Posix.w0))
    = trace Posix.w0 ++ before ++
      [Print text; Flush; Signal SIG_IGN;
       Spawn ([sys_executable (Host := Posix.host);
               runner (H := Posix.host)]
              ++ template_tokens (H := Posix.host) i outputdir
              ++ flat_map (fun tag => ["--exclude"; tag]) (excludes i)
              ++ ["--test"; "x"]) env;
       Wait 3].
Proof.
  destruct (command_line_order (H := Posix.host) "python" ["--test"; "x"]
              Posix.w0 3
              (snd (atests (H := Posix.host) "python" ["--test"; "x"]
                      Posix.w0)) eq_refl)
    as (token & i & outputdir & tempdir & w1 & w2 & before & text & env
        & _ & _ & _ & _ & _ & Htrace).
  exists i, outputdir, before, text, env. exact Htrace.
Defined.

(** The same run, with its command line written out. *)
Example command_line_of_python_run :
  exists text env,
    trace (snd (atests (H := Posix.host) "python" ["--test"; "x"] Posix.w0))
    = [Rmtree "/robot/atest/results/python";
       Makedirs "/tmp/robottests/python";
       Print text; Flush; Signal SIG_IGN;
       Spawn ["/usr/bin/python"; "/robot/src/robot/run.py";
              "--doc"; "Robot Framework acceptance tests";
              "--metadata"; "interpreter:Python 2.7.10 on linux";
              "--variablefile";
              "/robot/atest/interpreter.py;/usr/bin/python2.7;Python;2.7.10";
              "--pythonpath"; "/robot/atest/resources";
              "--outputdir"; "/robot/atest/results/python";
              "--splitlog"; "--console"; "dotted"; "--SuiteStatLevel"; "3";
              "--TagStatExclude"; "no-*";
              "--exclude"; "no-ci";
              "--test"; "x"] env;
       Wait 3].
Proof. do 2 eexists. reflexivity. Qed.

(** C5. For every argument list and temporary directory the launcher
    returns, and what it returns is the exit status of the child it started
    and waited for, unchanged; so a child that exits with 3 makes the
    launcher return 3, and when [atests] returns a status the script exits
    with that status. *)
Theorem launcher_returns_child_exit_status `{Host}
    (args : list string) (tempdir : string) (w : World) :
  let command := [sys_executable; runner] ++ args in
  let environ := <["TEMPDIR" := tempdir]> os_environ in
  let run := child command environ (fs w) in
  (exists text w',
     _run args tempdir w = (Return (returncode run), w') /\
     trace w' = trace w ++ [Print text; Flush; Signal SIG_IGN;
                            Spawn command environ; Wait (returncode run)] /\
     fs w' = fs_after run) /\
  (returncode run = 3%Z -> fst (_run args tempdir w) = Return 3%Z) /\
  (forall script interpreter arguments w0 rc w1,
     "--help" ∉ script :: interpreter :: arguments ->
     atests interpreter arguments w0 = (Return rc, w1) ->
     (exists before command' environ',
        trace w1 = trace w0 ++ before
                   ++ [Spawn command' environ'; Wait rc]) /\
     main (script :: interpreter :: arguments) w0
     = (Raise (SystemExit (inl rc)), w1) /\
     run_script (script :: interpreter :: arguments) w0
     = (Exited rc None, w1)).
Proof.
  intros command environ run. split; [|split].
  - do 2 eexists. rewrite _run_eq. now repeat split.
  - rewrite _run_eq. now intros <-.
  - intros script interpreter arguments w0 rc w1 Hhelp Hrun.
    pose proof (main_exits_with_atests_result _ _ _ _ _ _ Hhelp Hrun) as Hmain.
    split; [|split; [exact Hmain|unfold run_script; now rewrite Hmain]].
    apply atests_inv in Hrun
      as (token & w2 & i & o & t & w3 & Htok & _ & Hdirs & Hrun).
    rewrite _run_eq in Hrun. injection Hrun as <- <-.
    assert (quietly (if String.eqb interpreter "standalone" then jar
                     else mret interpreter)) as Hq1
      by (destruct (String.eqb _ _); [apply quietly_jar|apply quietly_ret]).
    destruct (Hq1 w0) as (ev1 & Htr1 & _).
    destruct (quietly_get_directories i w2) as (ev2 & Htr2 & _).
    rewrite Htok in Htr1. rewrite Hdirs in Htr2. cbn [snd] in Htr1, Htr2.
    eexists (ev1 ++ ev2 ++ [_; _; _]). do 2 eexists.
    cbn [trace]. rewrite Htr2, Htr1, <- !app_assoc. reflexivity.
Qed.

(** On the POSIX host the child exits with 3, and so does the script. *)
Lemma launcher_returns_child_exit_status_witness :
  fst (run_script (H := Posix.host)
         ["run_atests.py"; "python"; "atest/robot"] Posix.w0)
  = Exited 3 None.
Proof.
  destruct (launcher_returns_child_exit_status (H := Posix.host) [] ""
              Posix.w0) as (_ & _ & Hmain).
  destruct (Hmain "run_atests.py" "python" ["atest/robot"] Posix.w0 3%Z
              (snd (atests (H := Posix.host) "python" ["atest/robot"]
                      Posix.w0))) as (_ & _ & ->).
  - apply (bool_decide_unpack _). vm_compute. exact I.
  - reflexivity.
  - reflexivity.
Defined.

(** C8. For every launch, the environment given to the child is the
    script's own environment with [TEMPDIR] set to the temporary directory,
    whether or not the variable was set before; every other variable is
    passed on as inherited. *)
Theorem child_environment_sets_tempdir `{Host}
    (args : list string) (tempdir : string) (w : World) :
  exists text command env rc w',
    _run args tempdir w = (Return rc, w') /\
    trace w' = trace w ++ [Print text; Flush; Signal SIG_IGN;
                           Spawn command env; Wait rc] /\
    rc = returncode (child command env (fs w)) /\
    env = <["TEMPDIR" := tempdir]> os_environ /\
    env !! "TEMPDIR" = Some tempdir /\
    (forall var, var <> "TEMPDIR" -> env !! var = os_environ !! var).
Proof.
  do 5 eexists. rewrite _run_eq.
  split; [reflexivity|]. split; [reflexivity|]. split; [reflexivity|].
  split; [reflexivity|]. split; [apply lookup_insert_eq|].
  intros var Hvar. now apply lookup_insert_ne.
Qed.

(** C10. The launcher always reaches the spawn, and sets the disposition of
    SIGINT to [SIG_IGN] before it: the [signal.signal] call is the event
    just before the child starts, the disposition is still [SIG_IGN] when
    the launcher returns, and the launcher returns the child's status
    whatever number of interrupts reached the parent meanwhile. In every
    run of [atests] and of the whole script, whatever its outcome, each
    child is started while SIGINT is ignored. *)
Theorem sigint_ignored_before_spawn `{Host} :
  (forall args tempdir w,
     exists text command env rc w',
       _run args tempdir w = (Return rc, w') /\
       trace w' = trace w ++ [Print text; Flush; Signal SIG_IGN;
                              Spawn command env; Wait rc] /\
       sigint w' = SIG_IGN /\
       rc = returncode (child command env (fs w))) /\
  (forall interpreter arguments, guarded (atests interpreter arguments)) /\
  (forall argv, guarded (main argv)).
Proof.
  split; [|split; [apply guarded_atests|apply guarded_main]].
  intros args tempdir w. do 5 eexists. rewrite _run_eq. now repeat split.
Qed.

(** On the POSIX host an interrupt reaches the parent while the child runs:
    the launcher still returns the child's status, which it would not
    without ignoring SIGINT. *)
Example interrupt_during_child :
  sigints (child (Host := Posix.host) [] ∅ (fs Posix.w0)) = 1 /\
  fst (_run (H := Posix.host) ["atest/robot"] "/tmp/robottests/python"
         Posix.w0) = Return 3%Z /\
  fst (subprocess_call (H := Posix.host) ["/usr/bin/python"] ∅ Posix.w0)
  = Raise KeyboardInterrupt.
Proof. repeat split. Qed.

(** ** Usage and failures *)

(** C6. Called with no argument, or with [--help] anywhere among its
    arguments whatever the others are, the script prints its usage text and
    exits with status 251, and does nothing else. *)
Theorem usage_printed_and_exit_251 `{Host} (script : string) (w : World) :
  (main [script] w
   = (Raise (SystemExit (inl 251%Z)), emit (Print __doc__) w) /\
   run_script [script] w = (Exited 251 None, emit (Print __doc__) w)) /\
  (forall before after,
     main (script :: before ++ "--help" :: after) w
     = (Raise (SystemExit (inl 251%Z)), emit (Print __doc__) w) /\
     run_script (script :: before ++ "--help" :: after) w
     = (Exited 251 None, emit (Print __doc__) w)).
Proof.
  split; [now split|].
  intros before after.
  assert (main (script :: before ++ "--help" :: after) w
          = (Raise (SystemExit (inl 251%Z)), emit (Print __doc__) w)) as Hmain.
  { unfold main. rewrite bind_eq.
    rewrite bool_decide_true, orb_true_r; [reflexivity|].
    rewrite elem_of_cons, elem_of_app, elem_of_cons. auto. }
  split; [exact Hmain|]. unfold run_script. now rewrite Hmain.
Qed.

(** On the POSIX host: the help flag after an interpreter and a data
    source. *)
Example help_after_other_arguments :
  run_script (H := Posix.host)
    ["run_atests.py"; "python"; "atest/robot"; "--help"] Posix.w0
  = (Exited 251 None, emit (Print __doc__) Posix.w0).
Proof. reflexivity. Qed.

(** C7 (amended). When the interpreter token is [standalone] and the build
    step could not be imported, [atests] raises the [RuntimeError] of the
    fallback [jar] before anything else happens; nothing catches it, so the
    script ends with a traceback. An interpreter that the factory rejects
    with a [ValueError] is reported differently: [atests] turns that error
    into [sys.exit] with its message, and the script exits with status 1
    after printing the message alone. In both cases the world is left as it
    was: no directory is touched and no child is started. *)
Theorem build_unavailable_is_uncaught `{Host}
    (script : string) (arguments : list string) (w : World) :
  tasks_jar = None ->
  "--help" ∉ script :: arguments ->
  (atests "standalone" arguments w
   = (Raise (RuntimeError "Creating jar distribution requires 'invoke'."),
      w) /\
   run_script (script :: "standalone" :: arguments) w
   = (Traceback
        (RuntimeError "Creating jar distribution requires 'invoke'."), w)) /\
  (forall token err,
     token <> "standalone" -> token <> "--help" ->
     InterpreterFactory token = inl (ValueError err) ->
     atests token arguments w = (Raise (SystemExit (inr err)), w) /\
     run_script (script :: token :: arguments) w
     = (Exited 1 (Some err), w)).
Proof.
  intros Hjar Hhelp.
  assert (forall token, token <> "--help" ->
            (length (script :: token :: arguments) =? 1)%nat
            || bool_decide ("--help" ∈ script :: token :: arguments) = false)
    as Hguard.
  { intros token Htoken. cbn [length Nat.eqb orb].
    apply bool_decide_eq_false.
    rewrite not_elem_of_cons in Hhelp. destruct Hhelp as [Hscript Hargs].
    rewrite !elem_of_cons. intros [Heq|[Heq|Hin]]; congruence. }
  split.
  - assert (atests "standalone" arguments w
            = (Raise (RuntimeError
                        "Creating jar distribution requires 'invoke'."), w))
      as Hrun.
    { unfold atests. rewrite bind_eq. cbn [String.eqb Ascii.eqb Bool.eqb].
      unfold jar. now rewrite Hjar. }
    split; [exact Hrun|].
    unfold run_script, main. rewrite bind_eq, Hguard by discriminate.
    now rewrite Hrun.
  - intros token err Hstandalone Htoken Hfac.
    assert (atests token arguments w = (Raise (SystemExit (inr err)), w))
      as Hrun.
    { unfold atests. rewrite bind_eq.
      apply String.eqb_neq in Hstandalone. rewrite Hstandalone.
      cbn [mret M_ret ret]. rewrite bind_eq, Hfac. reflexivity. }
    split; [exact Hrun|].
    unfold run_script, main. rewrite bind_eq, Hguard by assumption.
    now rewrite Hrun.
Qed.

(** On the POSIX host, which has no build step. *)
Lemma build_unavailable_is_uncaught_witness :
  run_script (H := Posix.host)
    ["run_atests.py"; "standalone"; "atest/robot"] Posix.w0
  = (Traceback (RuntimeError "Creating jar distribution requires 'invoke'."),
     Posix.w0) /\
  run_script (H := Posix.host)
    ["run_atests.py"; "jython"; "atest/robot"] Posix.w0
  = (Exited 1 (Some "Invalid interpreter: jython"), Posix.w0).
Proof.
  destruct (build_unavailable_is_uncaught (H := Posix.host)
              "run_atests.py" ["atest/robot"] Posix.w0 eq_refl)
    as [[_ Hbuild] Hresolve].
  - apply (bool_decide_unpack _). vm_compute. exact I.
  - split; [exact Hbuild|].
    apply (Hresolve "jython" "Invalid interpreter: jython");
      [discriminate|discriminate|reflexivity].
Defined.

(** C7, as stated, fails: on a host without the build step the script does
    not exit with the message as it does for an unknown interpreter; it ends
    with the traceback of an uncaught exception. *)
Lemma build_unavailable_counterexample :
  tasks_jar (Host := Posix.host) = None /\
  ~ (exists message,
       fst (run_script (H := Posix.host)
              ["run_atests.py"; "standalone"; "atest/robot"] Posix.w0)
       = Exited 1 (Some message)) /\
  fst (run_script (H := Posix.host)
         ["run_atests.py"; "jython"; "atest/robot"] Posix.w0)
  = Exited 1 (Some "Invalid interpreter: jython").
Proof.
  split; [reflexivity|]. split; [|reflexivity].
  intros [message Hexit]. discriminate Hexit.
Qed.

(** * Further properties of the script *)

(** ** Runs that fail *)

Section FailingRuns.
Context `{Host}.

Lemma quietly_fails_quietly {A} (m : M A) : quietly m -> fails_quietly m.
Proof.
  intros Hm w e w' Hrun. destruct (Hm w) as (events & Htr & Hq & Hs).
  rewrite Hrun in Htr, Hs. now exists events.
Qed.




End FailingRuns.



(** X2. When the interpreter factory raises on the token it is given,
    [atests] ends there and leaves the world as the factory found it: a
    [ValueError] becomes a [SystemExit] that carries its message, and every
    other exception goes on unchanged, since the [except] clause names
    [ValueError] only. *)
Theorem only_value_error_becomes_exit `{Host}
    (interpreter : string) (arguments : list string) (w : World)
    (token : string) (w1 : World) (e : Exception) :
  (if String.eqb interpreter "standalone" then jar else mret interpreter) w
  = (Return token, w1) ->
  InterpreterFactory token = inl e ->
  atests interpreter arguments w
  = (Raise (match e with
            | ValueError err => SystemExit (inr err)
            | _ => e
            end), w1).
Proof.
  intros Htoken Hfac. unfold atests.
  rewrite bind_eq, Htoken, bind_eq, Hfac. now destruct e.
Qed.

(** On the POSIX host, whose factory does not know [jython]. *)
Lemma only_value_error_becomes_exit_witness :
  atests (H := Posix.host) "jython" ["atest/robot"] Posix.w0
  = (Raise (SystemExit (inr "Invalid interpreter: jython")), Posix.w0).
Proof.
  apply (only_value_error_becomes_exit (H := Posix.host) "jython"
           ["atest/robot"] Posix.w0 "jython" Posix.w0
           (ValueError "Invalid interpreter: jython"));
    reflexivity.
Defined.

(** X3. With the build step available, a run for the token [standalone] is
    the build followed by the run for the path the build returned, on the
    file system the build left; if the build raises, the run ends with that
    exception and nothing else is done. *)
Theorem standalone_runs_the_built_jar `{Host}
    (build : FS -> Outcome string * FS) (arguments : list string)
    (w : World) :
  tasks_jar = Some build ->
  (forall built f,
     build (fs w) = (Return built, f) -> built <> "standalone" ->
     atests "standalone" arguments w = atests built arguments (set_fs f w)) /\
  (forall e f,
     build (fs w) = (Raise e, f) ->
     atests "standalone" arguments w = (Raise e, set_fs f w)).
Proof.
  intros Hjar. split.
  - intros built f Hbuild Hne. unfold atests.
    rewrite !bind_eq. cbn [String.eqb Ascii.eqb Bool.eqb].
    unfold jar. rewrite Hjar, Hbuild.
    apply String.eqb_neq in Hne. now rewrite Hne.
  - intros e f Hbuild. unfold atests.
    rewrite bind_eq. cbn [String.eqb Ascii.eqb Bool.eqb].
    unfold jar. now rewrite Hjar, Hbuild.
Qed.

(** On the host with the build step: the child gets the jar's exclusion
    tags and the directories are named after [Standalone JAR]. *)
Lemma standalone_runs_the_built_jar_witness :
  atests (H := Standalone.host) "standalone" [] Standalone.w0
  = atests (H := Standalone.host) Standalone.jar_path []
      (set_fs (H := Standalone.host)
         (Posix.chain ["robot"; "dist"] ++ fs Standalone.w0) Standalone.w0).
Proof.
  destruct (standalone_runs_the_built_jar (H := Standalone.host)
              Standalone.build [] Standalone.w0 eq_refl) as [Hbuilt _].
  apply Hbuilt; [reflexivity|discriminate].
Defined.

Example standalone_run :
  exists text env,
    trace (snd (atests (H := Standalone.host) "standalone" ["atest/robot"]
                  Standalone.w0))
    = [Makedirs "/tmp/robottests/standalone_jar";
       Print text; Flush; Signal SIG_IGN;
       Spawn ["/usr/bin/python"; "/robot/src/robot/run.py";
              "--doc"; "Robot Framework acceptance tests";
              "--metadata"; "interpreter:Standalone JAR 2.9 on linux";
              "--variablefile";
              "/robot/atest/interpreter.py;/robot/dist/robotframework-2.9.jar;Standalone JAR;2.9";
              "--pythonpath"; "/robot/atest/resources";
              "--outputdir"; "/robot/atest/results/standalone_jar";
              "--splitlog"; "--console"; "dotted"; "--SuiteStatLevel"; "3";
              "--TagStatExclude"; "no-*";
              "--exclude"; "no-standalone"; "--exclude"; "no-jython";
              "atest/robot"] env;
       Wait 0] /\
    env !! "TEMPDIR" = Some "/tmp/robottests/standalone_jar".
Proof. do 2 eexists. split; reflexivity. Qed.

(** ** Runs that reach the launch *)

(** A run of [atests] that returns, with the world it leaves written
    out. *)
Lemma atests_return_inv `{Host} interpreter arguments w rc w' :
  atests interpreter arguments w = (Return rc, w') ->
  exists token w1 i outputdir tempdir w2,
    (if String.eqb interpreter "standalone" then jar else mret interpreter) w
    = (Return token, w1) /\
    InterpreterFactory token = inr i /\
    _get_directories i w1 = (Return (outputdir, tempdir), w2) /\
    let command :=
      [sys_executable; runner]
      ++ (template_tokens i outputdir ++ exclude_pairs i) ++ arguments in
    let environ := <["TEMPDIR" := tempdir]> os_environ in
    let run := child command environ (fs w2) in
    rc = returncode run /\
    w' = {| fs := fs_after run;
            sigint := SIG_IGN;
            trace := trace w2 ++
              [Print ("Running command:
" +:+ str_join " " command +:+ "
"); Flush; Signal SIG_IGN; Spawn command environ; Wait (returncode run)] |}.
Proof.
  intros Hrun.
  apply atests_inv in Hrun
    as (token & w1 & i & outputdir & tempdir & w2 & Htok & Hfac & Hdirs & Hrun).
  exists token, w1, i, outputdir, tempdir, w2.
  split; [exact Htok|]. split; [exact Hfac|]. split; [exact Hdirs|].
  intros command environ run. rewrite _run_eq in Hrun.
  fold command environ run in Hrun. split; congruence.
Qed.



(** X5. In every run of [atests] that returns, the child is started on the
    file system directory preparation left, in which the temporary
    directory exists, and its [TEMPDIR] is that directory; the status
    returned and the file system left are the child's. *)
Theorem child_finds_its_tempdir `{Host} {laws : FsLaws}
    (interpreter : string) (arguments : list string) (w : World)
    (rc : Z) (w' : World) :
  atests interpreter arguments w = (Return rc, w') ->
  exists i outputdir tempdir w1 w2 before command env,
    _get_directories i w1 = (Return (outputdir, tempdir), w2) /\
    exists_ (fs w2) tempdir = true /\
    env !! "TEMPDIR" = Some tempdir /\
    trace w' = trace w2 ++ before ++ [Spawn command env; Wait rc] /\
    forallb quiet (removelast before) = true /\
    rc = returncode (child command env (fs w2)) /\
    fs w' = fs_after (child command env (fs w2)).
Proof.
  intros Hrun.
  apply atests_return_inv in Hrun
    as (token & w1 & i & outputdir & tempdir & w2 & _ & _ & Hdirs & Hrun).
  cbv zeta in Hrun. destruct Hrun as [-> ->].
  destruct (_get_directories_inv _ _ _ _ _ Hdirs)
    as (fs1 & fs2 & _ & _ & _ & _ & Hmk).
  exists i, outputdir, tempdir, w1, w2.
  eexists [_; _; _]. do 2 eexists.
  split; [exact Hdirs|]. split; [eapply makedirs_made; exact Hmk|].
  split; [apply lookup_insert_eq|]. now repeat split.
Qed.

(** On the POSIX host. *)
Lemma child_finds_its_tempdir_witness :
  exists i outputdir tempdir w1 w2 (env : gmap string string),
    _get_directories (H := Posix.host) i w1
    = (Return (outputdir, tempdir), w2) /\
    exists_ (fs w2) tempdir = true /\
    env !! "TEMPDIR" = Some tempdir.
Proof.
  destruct (child_finds_its_tempdir (H := Posix.host) (laws := posix_fs_laws)
              "python" ["atest/robot"] Posix.w0 3
              (snd (atests (H := Posix.host) "python" ["atest/robot"]
                      Posix.w0)) eq_refl)
    as (i & outputdir & tempdir & w1 & w2 & before & command & env
        & Hdirs & Hexists & Henv & _).
  exists i, outputdir, tempdir, w1, w2, env. now repeat split.
Defined.



(** ** Directory preparation, further *)

(** X7. Directory preparation stops at the first file-system call that
    raises and passes the exception on: later calls are not made, and what
    earlier calls removed stays removed (nothing is rolled back). *)
Theorem first_file_system_error_ends_preparation `{Host}
    (i : Interpreter) (w : World) (outputdir tempdir : string) :
  let safe := replace " " "_" (lower (name i)) in
  dos_to_long (join CURDIR ["results"; safe]) w = (Return outputdir, w) ->
  dos_to_long (join gettempdir ["robottests"; safe]) w
  = (Return tempdir, w) ->
  (forall e f1,
     exists_ (fs w) outputdir = true ->
     rmtree outputdir (fs w) = (Raise e, f1) ->
     _get_directories i w
     = (Raise e,
        {| fs := f1; sigint := sigint w;
           trace := trace w ++ [Rmtree outputdir] |})) /\
  (forall f1 e f2,
     removed_if_exists outputdir (fs w) f1 ->
     exists_ f1 tempdir = true ->
     rmtree tempdir f1 = (Raise e, f2) ->
     _get_directories i w
     = (Raise e,
        {| fs := f2; sigint := sigint w;
           trace := trace w
                    ++ (if exists_ (fs w) outputdir then [Rmtree outputdir]
                        else [])
                    ++ [Rmtree tempdir] |})) /\
  (forall f1 f2 e f3,
     removed_if_exists outputdir (fs w) f1 ->
     removed_if_exists tempdir f1 f2 ->
     makedirs tempdir f2 = (Raise e, f3) ->
     _get_directories i w
     = (Raise e,
        {| fs := f3; sigint := sigint w;
           trace := trace w
                    ++ (if exists_ (fs w) outputdir then [Rmtree outputdir]
                        else [])
                    ++ (if exists_ f1 tempdir then [Rmtree tempdir] else [])
                    ++ [Makedirs tempdir] |})).
Proof.
  intros safe Ho Ht.
  assert (forall {B} (k : string -> string -> M B),
            (o ← dos_to_long (join CURDIR ["results"; safe]);
             t ← dos_to_long (join gettempdir ["robottests"; safe]);
             k o t) w = k outputdir tempdir w) as Hpaths.
  { intros B k. now rewrite bind_eq, Ho, bind_eq, Ht. }
  unfold _get_directories. fold safe. rewrite Hpaths. clear Hpaths.
  split; [|split].
  - intros e f1 Hex Hrm. rewrite bind_eq. unfold path_exists. rewrite Hex.
    rewrite bind_eq. unfold shutil_rmtree. now rewrite Hrm.
  - intros f1 e f2 Hrm1 Hex Hrm2.
    rewrite (removal_then outputdir _ w f1) by assumption.
    rewrite bind_eq. unfold path_exists, after_removal.
    cbn [fs sigint trace]. rewrite Hex.
    rewrite bind_eq. unfold shutil_rmtree. cbn [fs sigint trace].
    rewrite Hrm2. unfold set_fs, emit. cbn [fs sigint trace].
    now rewrite <- app_assoc.
  - intros f1 f2 e f3 Hrm1 Hrm2 Hmk.
    rewrite (removal_then outputdir _ w f1) by assumption.
    rewrite (removal_then tempdir _ _ f2) by assumption.
    rewrite bind_eq. unfold os_makedirs, after_removal.
    cbn [fs sigint trace]. rewrite Hmk.
    unfold set_fs, emit. cbn [fs sigint trace].
    now rewrite <- !app_assoc.
Qed.

(** On the full disk: the old results are removed, [makedirs] fails, and
    the results stay removed. *)
Lemma first_file_system_error_ends_preparation_witness :
  exists w',
    _get_directories (H := FullDisk.host) Posix.python FullDisk.w0
    = (Raise (OSError "No space left on device"), w') /\
    trace w' = [Rmtree "/robot/atest/results/python";
                Makedirs "/tmp/robottests/python"] /\
    exists_ (fs w') "/robot/atest/results/python" = false /\
    exists_ (fs w') "/tmp/robottests/python" = false.
Proof.
  destruct (first_file_system_error_ends_preparation (H := FullDisk.host)
              Posix.python FullDisk.w0
              "/robot/atest/results/python" "/tmp/robottests/python"
              eq_refl eq_refl) as (_ & _ & Hmk).
  eexists. split.
  - apply (Hmk [[]; ["robot"]; ["robot"; "atest"];
                ["robot"; "atest"; "results"]; ["tmp"]]
               [[]; ["robot"]; ["robot"; "atest"];
                ["robot"; "atest"; "results"]; ["tmp"]]);
      reflexivity.
  - now repeat split.
Defined.

(** *** The POSIX host's [rmtree] removes a subtree and nothing else *)

Lemma prefix_chain (l d : list string) : l `prefix_of` d -> l ∈ Posix.chain d.
Proof.
  intros [k ->]. unfold Posix.chain. apply list_elem_of_fmap.
  exists (length l). split; [now rewrite take_app_length|].
  apply elem_of_seq. rewrite length_app. lia.
Qed.

Lemma posix_tree_laws : @TreeLaws Posix.host.
Proof.
  split; cbn [rmtree exists_ parts Posix.host];
    unfold Posix.remove_tree, Posix.is_dir; intros fs p fs' q.
  - case_bool_decide; [|discriminate]. intros Heq Hpre.
    apply (f_equal snd) in Heq. cbn [snd] in Heq. subst fs'.
    apply bool_decide_eq_false.
    intros [Hno _]%list_elem_of_filter. now apply Hno.
  - case_bool_decide; [|discriminate].
    intros Heq Hq%bool_decide_eq_true Hgone%bool_decide_eq_false.
    apply (f_equal snd) in Heq. cbn [snd] in Heq. subst fs'.
    destruct (decide (Posix.dir_of p `prefix_of` Posix.dir_of q))
      as [Hpre|Hpre]; [exact Hpre|].
    exfalso. apply Hgone. now apply list_elem_of_filter.
Qed.

Lemma posix_w0_tree : tree (H := Posix.host) (fs Posix.w0).
Proof.
  intros p q Hq%bool_decide_eq_true Hpre%prefix_chain.
  apply bool_decide_eq_true.
  cbn [parts exists_ Posix.host] in *.
  assert (Forall (fun d => Forall (fun l => l ∈ fs Posix.w0) (Posix.chain d))
            (fs Posix.w0)) as Hall
    by (apply (bool_decide_unpack _); vm_compute; exact I).
  rewrite Forall_forall in Hall. specialize (Hall _ Hq).
  rewrite Forall_forall in Hall. now apply Hall.
Qed.

(** X8. When directory preparation returns on a file system that was a tree
    and obeys the laws, it has cleared both directories: nothing at or
    below the output directory or the temporary directory exists, except
    the temporary directory itself and the directories above it. In
    particular the temporary directory is empty. *)
Theorem preparation_clears_both_directories `{Host}
    {laws : FsLaws} {tree_laws : TreeLaws}
    (i : Interpreter) (w : World) (outputdir tempdir : string) (w' : World) :
  tree (fs w) ->
  _get_directories i w = (Return (outputdir, tempdir), w') ->
  forall q,
    parts outputdir `prefix_of` parts q \/ parts tempdir `prefix_of` parts q ->
    ~ parts q `prefix_of` parts tempdir ->
    exists_ (fs w') q = false.
Proof.
  intros Htree Hrun q Hbelow Hchain.
  destruct (_get_directories_inv _ _ _ _ _ Hrun)
    as (fs1 & fs2 & _ & _ & Hrm1 & Hrm2 & Hmk).
  destruct (exists_ (fs w') q) eqn:Hq'; [exfalso|reflexivity].
  destruct (makedirs_creates_chain _ _ _ _ Hmk Hq') as [Hq2|Hin];
    [|contradiction].
  assert (exists_ fs1 q = true) as Hq1.
  { destruct (exists_ fs1 q) eqn:E; [reflexivity|].
    rewrite (removed_creates_nothing _ _ _ _ Hrm2 E) in Hq2. discriminate. }
  assert (exists_ (fs w) q = true) as Hq0.
  { destruct (exists_ (fs w) q) eqn:E; [reflexivity|].
    rewrite (removed_creates_nothing _ _ _ _ Hrm1 E) in Hq1. discriminate. }
  assert (parts outputdir `prefix_of` parts q -> False) as Hnot_out.
  { intros Hpre. unfold removed_if_exists in Hrm1.
    destruct (exists_ (fs w) outputdir) eqn:Eo.
    - rewrite (rmtree_subtree _ _ _ _ Hrm1 Hpre) in Hq1. discriminate.
    - rewrite (Htree outputdir q Hq0 Hpre) in Eo. discriminate. }
  destruct Hbelow as [Hpre|Hpre]; [now apply Hnot_out|].
  unfold removed_if_exists in Hrm2.
  destruct (exists_ fs1 tempdir) eqn:Et.
  - rewrite (rmtree_subtree _ _ _ _ Hrm2 Hpre) in Hq2. discriminate.
  - pose proof (Htree tempdir q Hq0 Hpre) as Et0.
    unfold removed_if_exists in Hrm1.
    destruct (exists_ (fs w) outputdir) eqn:Eo; [|congruence].
    apply Hnot_out. etrans; [|exact Hpre].
    eapply rmtree_only_subtree; eassumption.
Qed.

(** On the POSIX host: logs of an earlier run are not there any more. *)
Lemma preparation_clears_both_directories_witness :
  exists_ (fs (snd (_get_directories (H := Posix.host) Posix.python
                      Posix.w0)))
    "/robot/atest/results/python/log.html" = false /\
  exists_ (fs (snd (_get_directories (H := Posix.host) Posix.python
                      Posix.w0)))
    "/tmp/robottests/python/old" = false.
Proof.
  split;
    apply (preparation_clears_both_directories (H := Posix.host)
             (laws := posix_fs_laws) (tree_laws := posix_tree_laws)
             Posix.python Posix.w0
             "/robot/atest/results/python" "/tmp/robottests/python"
             _ posix_w0_tree eq_refl);
    [left|idtac|right|idtac];
    apply (bool_decide_unpack _); vm_compute; exact I.
Defined.

(** X9. Where [os.name] is not [nt], [dos_to_long] returns every path
    unchanged, also one that contains [~] and exists; so the directories
    preparation returns are the plain joins of the script's directory with
    [results] and the safe name, and of the temporary root with
    [robottests] and the safe name. *)
Theorem directories_are_plain_joins_off_windows `{Host} :
  os_name <> "nt" ->
  (forall p w, dos_to_long p w = (Return p, w)) /\
  (forall i w outputdir tempdir w',
     _get_directories i w = (Return (outputdir, tempdir), w') ->
     let safe := replace " " "_" (lower (name i)) in
     outputdir = join CURDIR ["results"; safe] /\
     tempdir = join gettempdir ["robottests"; safe]).
Proof.
  intros Hos%String.eqb_neq.
  assert (forall p w, dos_to_long p w = (Return p, w)) as Hid.
  { intros p w. unfold dos_to_long. now rewrite Hos. }
  split; [exact Hid|].
  intros i w outputdir tempdir w' Hrun safe.
  destruct (_get_directories_inv _ _ _ _ _ Hrun)
    as (fs1 & fs2 & Ho & Ht & _).
  fold safe in Ho, Ht. rewrite Hid in Ho, Ht. split; congruence.
Qed.

(** On the POSIX host, for a path with the marker that exists. *)
Lemma directories_are_plain_joins_off_windows_witness :
  let w := @Build_World Posix.host [["tmp"; "~backup"]] SIG_IGN [] in
  exists_ (fs w) "/tmp/~backup" = true /\
  dos_to_long (H := Posix.host) "/tmp/~backup" w = (Return "/tmp/~backup", w).
Proof.
  destruct (directories_are_plain_joins_off_windows (H := Posix.host))
    as [Hid _]; [discriminate|].
  split; [reflexivity|apply Hid].
Defined.

Lemma replace_idem s :
  replace " " "_" (replace " " "_" s) = replace " " "_" s.
Proof.
  induction s as [|c s IH]; [reflexivity|].
  cbn [replace]. rewrite IH. f_equal.
  destruct (Ascii.eqb_spec c " ") as [->|Hc]; [reflexivity|].
  now apply Ascii.eqb_neq in Hc as ->.
Qed.

(** X10. Directory preparation looks at nothing of the descriptor but its
    safe name: two descriptors with the same safe name are given the same
    two directories, and each run removes what the other left, whatever
    their versions, paths and tags. The safe name is its own safe name, so
    a descriptor named by another one's safe name shares its directories:
    names that differ only in letter case, or in spaces against
    underscores, collide. *)
Theorem same_safe_name_same_directories `{Host}
    (i1 i2 : Interpreter) (w : World) :
  let safe n := replace " " "_" (lower n) in
  safe (safe (name i1)) = safe (name i1) /\
  (safe (name i1) = safe (name i2) ->
   _get_directories i1 w = _get_directories i2 w) /\
  (name i2 = safe (name i1) ->
   _get_directories i1 w = _get_directories i2 w).
Proof.
  intros safe.
  assert (safe (safe (name i1)) = safe (name i1)) as Hidem.
  { unfold safe. now rewrite lower_replace, lower_idem, replace_idem. }
  assert (safe (name i1) = safe (name i2) ->
          _get_directories i1 w = _get_directories i2 w) as Hsame.
  { unfold safe, _get_directories. now intros ->. }
  split; [exact Hidem|]. split; [exact Hsame|].
  intros Hname. apply Hsame. now rewrite Hname, Hidem.
Qed.

(** On the POSIX host: [Standalone JAR] and [standalone_jar]. *)
Lemma same_safe_name_same_directories_witness :
  _get_directories (H := Posix.host) Standalone.standalone_jar Posix.w0
  = _get_directories (H := Posix.host)
      {| name := "standalone_jar"; version := "3.0"; os := "windows";
         path := "/opt/other.jar"; excludes := [] |} Posix.w0.
Proof.
  apply (same_safe_name_same_directories (H := Posix.host)). reflexivity.
Defined.

(** X11. Two preparations in a row: when the output directory is neither
    the temporary directory nor above it, and the host is not Windows, a
    second preparation for the same descriptor that returns gives the same
    two directories, finds the output directory absent and the temporary one
    present, and so removes and recreates the temporary directory and does
    nothing else. *)
Theorem second_preparation_recreates_tempdir `{Host} {laws : FsLaws}
    (i : Interpreter) (w w' w'' : World)
    (outputdir tempdir outputdir' tempdir' : string) :
  os_name <> "nt" ->
  _get_directories i w = (Return (outputdir, tempdir), w') ->
  ~ parts outputdir `prefix_of` parts tempdir ->
  _get_directories i w' = (Return (outputdir', tempdir'), w'') ->
  outputdir' = outputdir /\
  tempdir' = tempdir /\
  trace w'' = trace w' ++ [Rmtree tempdir; Makedirs tempdir] /\
  exists_ (fs w'') tempdir = true /\
  exists_ (fs w'') outputdir = false.
Proof.
  intros Hos%String.eqb_neq Hfirst Hout Hsecond.
  assert (forall p v, dos_to_long p v = (Return p, v)) as Hid.
  { intros p v. unfold dos_to_long. now rewrite Hos. }
  destruct (_get_directories_inv _ _ _ _ _ Hfirst)
    as (fs1 & fs2 & Ho & Ht & Hrm1 & Hrm2 & Hmk).
  destruct (_get_directories_inv _ _ _ _ _ Hsecond)
    as (fs1' & fs2' & Ho' & Ht' & Hrm1' & Hrm2' & Hmk').
  assert (outputdir' = outputdir) as ->
    by (rewrite Hid in Ho, Ho'; congruence).
  assert (tempdir' = tempdir) as ->
    by (rewrite Hid in Ht, Ht'; congruence).
  assert (exists_ (fs w') tempdir = true) as Htemp
    by (eapply makedirs_made; exact Hmk).
  assert (exists_ (fs w') outputdir = false) as Habsent.
  { destruct (exists_ (fs w') outputdir) eqn:E; [|reflexivity].
    destruct (makedirs_creates_chain _ _ _ _ Hmk E) as [Hwas|Hin];
      [|contradiction].
    pose proof (removed_gone _ _ _ Hrm1) as Hgone.
    rewrite (removed_creates_nothing _ _ _ _ Hrm2 Hgone) in Hwas.
    discriminate. }
  assert (fs1' = fs w') as ->.
  { unfold removed_if_exists in Hrm1'. now rewrite Habsent in Hrm1'. }
  pose proof (_get_directories_returns i w' outputdir tempdir
                (fs w') fs2' (fs w'') Ho' Ht' Hrm1' Hrm2' Hmk') as Hrun.
  rewrite Hsecond, Habsent, Htemp in Hrun.
  apply (f_equal (fun r => trace (snd r))) in Hrun.
  cbn [snd trace app] in Hrun. repeat split; [exact Hrun| |].
  - eapply makedirs_made; exact Hmk'.
  - destruct (exists_ (fs w'') outputdir) eqn:E; [|reflexivity].
    destruct (makedirs_creates_chain _ _ _ _ Hmk' E) as [Hwas|Hin];
      [|contradiction].
    rewrite (removed_creates_nothing _ _ _ _ Hrm2' Habsent) in Hwas.
    discriminate.
Qed.

(** On the POSIX host. *)
Lemma second_preparation_recreates_tempdir_witness :
  let w' := snd (_get_directories (H := Posix.host) Posix.python Posix.w0) in
  trace (snd (_get_directories (H := Posix.host) Posix.python w'))
  = trace w' ++ [Rmtree "/tmp/robottests/python";
                 Makedirs "/tmp/robottests/python"].
Proof.
  intros w'.
  destruct (second_preparation_recreates_tempdir (H := Posix.host)
              (laws := posix_fs_laws) Posix.python Posix.w0 w'
              (snd (_get_directories (H := Posix.host) Posix.python w'))
              "/robot/atest/results/python" "/tmp/robottests/python"
              "/robot/atest/results/python" "/tmp/robottests/python")
    as (_ & _ & Htrace & _);
    [discriminate|reflexivity| |reflexivity|exact Htrace].
  apply (bool_decide_unpack _). vm_compute. exact I.
Defined.

(** ** The command as it is printed *)

Lemma str_join_cons sep (c : ascii) part parts :
  str_join sep (String c part :: parts)
  = String c (str_join sep (part :: parts)).
Proof. now destruct parts. Qed.

Lemma split_nonempty sep n s : split sep n s <> [].
Proof.
  destruct n as [|n]; [discriminate|].
  destruct s as [|c s]; [discriminate|].
  rewrite split_cons. destruct (Ascii.eqb c sep); [discriminate|].
  now destruct (split sep (S n) s).
Qed.

Lemma str_join_split sep n s : str_join (String sep "") (split sep n s) = s.
Proof.
  revert s. induction n as [|n IHn]; [reflexivity|].
  induction s as [|c s IHs]; [reflexivity|].
  rewrite split_cons. destruct (Ascii.eqb_spec c sep) as [->|Hc].
  - specialize (IHn s). pose proof (split_nonempty sep n s) as Hne.
    destruct (split sep n s) as [|part parts]; [contradiction|].
    change (str_join (String sep "") ("" :: part :: parts))
      with (String sep (str_join (String sep "") (part :: parts))).
    now rewrite IHn.
  - pose proof (split_nonempty sep (S n) s) as Hne.
    destruct (split sep (S n) s) as [|part parts]; [contradiction|].
    now rewrite str_join_cons, IHs.
Qed.

Lemma str_join_app sep (l1 l2 : list string) :
  l1 <> [] -> l2 <> [] ->
  str_join sep (l1 ++ l2) = str_join sep l1 +:+ sep +:+ str_join sep l2.
Proof.
  intros H1 H2. induction l1 as [|x l1 IH]; [contradiction|].
  destruct l1 as [|y l1].
  - destruct l2; [contradiction|reflexivity].
  - change (str_join sep ((x :: y :: l1) ++ l2))
      with (x +:+ sep +:+ str_join sep ((y :: l1) ++ l2)).
    rewrite IH by discriminate.
    change (str_join sep (x :: y :: l1))
      with (x +:+ sep +:+ str_join sep (y :: l1)).
    now rewrite !append_assoc.
Qed.

Lemma str_join_flat_map_split (lines : list string) :
  str_join " " (flat_map (fun line => split " " 1 line) lines)
  = str_join " " lines.
Proof.
  induction lines as [|l lines IH]; [reflexivity|].
  cbn [flat_map]. destruct lines as [|l' lines].
  - cbn [flat_map]. rewrite app_nil_r. apply (str_join_split " " 1).
  - rewrite str_join_app.
    + rewrite IH. now rewrite (str_join_split " " 1 l).
    + apply split_nonempty.
    + cbn [flat_map]. intros Happ%app_eq_nil. destruct Happ as [Hsplit _].
      now apply split_nonempty in Hsplit.
Qed.

(** X12. Splitting a string on a separator, with any bound on the number of
    cuts, and joining the parts with that separator gives the string back.
    So the command printed before the launch shows every line of the
    formatted template as it was, its tokens joined by the space they were
    split on: the printed tokens of the template are the template's lines
    joined by spaces. *)
Theorem printed_command_shows_template_lines `{Host}
    (i : Interpreter) (outputdir : string) :
  (forall sep maxsplit s,
     str_join (String sep "") (split sep maxsplit s) = s) /\
  str_join " " (template_tokens i outputdir)
  = str_join " "
      (splitlines
         (str_join (String LF "")
            (template_lines i (join CURDIR ["interpreter.py"])
               (join CURDIR ["resources"]) outputdir))).
Proof.
  split; [apply str_join_split|]. apply str_join_flat_map_split.
Qed.

(** ** Values with line boundaries *)

(** X13. Nothing escapes the substituted values: a line boundary inside
    the output directory ends the [--outputdir] line there, and what
    follows it becomes a line of its own, split on its first space like a
    line of the template, so that its first word is passed to the runner as
    a token in flag position. *)
Theorem line_break_in_outputdir_starts_a_line `{Host}
    (i : Interpreter) (before after : string) :
  one_line_values i before ->
  has_linebreak after = false ->
  template_tokens i (before +:+ String LF after)
  = [ "--doc"; "Robot Framework acceptance tests";
      "--metadata";
      "interpreter:" +:+ name i +:+ " " +:+ version i +:+ " on " +:+ os i;
      "--variablefile";
      join CURDIR ["interpreter.py"] +:+ ";" +:+ path i +:+ ";" +:+ name i
        +:+ ";" +:+ version i;
      "--pythonpath"; join CURDIR ["resources"];
      "--outputdir"; before ]
    ++ split " " 1 after
    ++ [ "--splitlog"; "--console"; "dotted"; "--SuiteStatLevel"; "3";
         "--TagStatExclude"; "no-*" ].
Proof.
  intros Hone Hafter. unfold template_tokens.
  pose proof (template_lines_one_line i before Hone) as Hlines.
  set (vf := join CURDIR ["interpreter.py"]) in *.
  set (pp := join CURDIR ["resources"]) in *.
  assert (str_join (String LF "")
            (template_lines i vf pp (before +:+ String LF after))
          = str_join (String LF "")
              (take 5 (template_lines i vf pp before)
               ++ after :: drop 5 (template_lines i vf pp before))) as ->.
  { unfold template_lines, str_join. cbn [String.concat take drop app].
    rewrite !append_assoc. reflexivity. }
  rewrite splitlines_join.
  - reflexivity.
  - apply Forall_app. split; [now apply Forall_take|].
    apply Forall_cons. split; [assumption|now apply Forall_drop].
  - discriminate.
Qed.

(** On the POSIX host: an option smuggled in after a line feed. *)
Lemma line_break_in_outputdir_starts_a_line_witness :
  exists args,
    _get_arguments (H := Posix.host) Posix.python
      ("/tmp/out" +:+ String LF "--include smoke") = Return args /\
    args !! 9 = Some "/tmp/out" /\
    args !! 10 = Some "--include" /\
    args !! 11 = Some "smoke".
Proof.
  pose proof (line_break_in_outputdir_starts_a_line (H := Posix.host)
                Posix.python "/tmp/out" "--include smoke") as Htokens.
  eexists. split; [apply _get_arguments_eq|].
  rewrite Htokens; [now repeat split|now repeat split|reflexivity].
Defined.
